(** * Satisfaction survey server: a shallow embedding of [server.js]

    The server has two routes over one SQLite table:
    - [POST /api/feedback] validates a JSON body, trims the text fields,
      coerces the ratings with [Number] and inserts one row;
    - [GET /api/stats?month=YYYY-MM] derives a UTC month interval with
      [monthRange], aggregates the rows of that interval per project and
      derives an action plan with a fixed threshold.

    Conventions of the model.
    - A JavaScript string is a [string] holding its UTF-8 bytes, which is
      also how SQLite stores and compares TEXT.
    - A JavaScript number is either [NaN] or an exact rational: rounding
      and the infinite values of IEEE doubles are not represented.
    - A field of the request body is a JSON scalar (or absent). *)

From Stdlib Require Import List String Ascii Bool ZArith QArith Qround Lia Lqa.
From Stdlib Require Import Sorting.Sorted Permutation.
Import ListNotations.

Open Scope string_scope.
Open Scope Z_scope.

(** ** JavaScript strings *)

Module JsString.

(** WhiteSpace and LineTerminator code points of ECMAScript, in UTF-8:
    TAB LF VT FF CR SP, U+00A0, U+1680, U+2000..U+200A, U+2028, U+2029,
    U+202F, U+205F, U+3000, U+FEFF. *)
Definition white_space : list (list ascii) :=
  map (map ascii_of_nat)
    (List.app
       [ [9]; [10]; [11]; [12]; [13]; [32]; [194; 160]; [225; 154; 128] ]
       (List.app
          (map (fun k => [226; 128; k])
             [128; 129; 130; 131; 132; 133; 134; 135; 136; 137; 138])
          [ [226; 128; 168]; [226; 128; 169]; [226; 128; 175];
            [226; 129; 159]; [227; 128; 128]; [239; 187; 191] ]))%nat.

Fixpoint strip_prefix (p l : list ascii) : option (list ascii) :=
  match p, l with
  | [], _ => Some l
  | a :: p', b :: l' => if Ascii.eqb a b then strip_prefix p' l' else None
  | _ :: _, [] => None
  end.

(** Drop one leading white space sequence among [ws], if there is one. *)
Fixpoint drop_one (ws : list (list ascii)) (l : list ascii)
  : option (list ascii) :=
  match ws with
  | [] => None
  | w :: ws' =>
      match strip_prefix w l with
      | Some l' => Some l'
      | None => drop_one ws' l
      end
  end.

Fixpoint drop_while (ws : list (list ascii)) (fuel : nat) (l : list ascii)
  : list ascii :=
  match fuel with
  | O => l
  | S fuel' =>
      match drop_one ws l with
      | Some l' => drop_while ws fuel' l'
      | None => l
      end
  end.

Definition trim_start (l : list ascii) : list ascii :=
  drop_while white_space (List.length l) l.

Definition trim_end (l : list ascii) : list ascii :=
  rev (drop_while (map (@rev ascii) white_space) (List.length l) (rev l)).

(** [String.prototype.trim]. *)
Definition trim (s : string) : string :=
  string_of_list_ascii (trim_end (trim_start (list_ascii_of_string s))).

(** [s.split("-")] for a one-character separator: the pieces between the
    separators, in order; a string without separator is its own piece. *)
Fixpoint split_on (sep : ascii) (s : string) : list string :=
  match s with
  | EmptyString => [EmptyString]
  | String c r =>
      if Ascii.eqb c sep then EmptyString :: split_on sep r
      else match split_on sep r with
           | p :: ps => String c p :: ps
           | [] => [String c EmptyString]
           end
  end.

(** [s.includes(p)]. *)
Fixpoint includes (p s : string) : bool :=
  prefix p s ||
  match s with
  | EmptyString => false
  | String _ r => includes p r
  end.

End JsString.

(** ** JavaScript numbers *)

Inductive number : Type :=
| NaN
| Fin (q : Q).

Module JsNumber.

Definition is_digit (c : ascii) : bool :=
  (48 <=? nat_of_ascii c)%nat && (nat_of_ascii c <=? 57)%nat.

(** Value of a digit in a base up to 16, [None] when [c] is no digit of
    that base. *)
Definition digit_in (base : Z) (c : ascii) : option Z :=
  let n := Z.of_nat (nat_of_ascii c) in
  let v :=
    if (48 <=? n) && (n <=? 57) then Some (n - 48)
    else if (97 <=? n) && (n <=? 102) then Some (n - 87)
    else if (65 <=? n) && (n <=? 70) then Some (n - 55)
    else None in
  match v with
  | Some d => if d <? base then Some d else None
  | None => None
  end.

(** Longest prefix of digits of [base]: its value read after [acc], its
    length, and the rest of the string. *)
Fixpoint span_digits (base acc : Z) (len : nat) (s : string)
  : Z * nat * string :=
  match s with
  | EmptyString => (acc, len, EmptyString)
  | String c r =>
      match digit_in base c with
      | Some d => span_digits base (base * acc + d) (S len) r
      | None => (acc, len, s)
      end
  end.

(** ExponentPart_opt at the end of a decimal literal. *)
Definition exponent (s : string) : option Z :=
  match s with
  | EmptyString => Some 0
  | String c r =>
      if Ascii.eqb c "e" || Ascii.eqb c "E" then
        let '(neg, r') :=
          match r with
          | String "-" r' => (true, r')
          | String "+" r' => (false, r')
          | _ => (false, r)
          end in
        match span_digits 10 0 0 r' with
        | (_, O, _) => None
        | (e, S _, EmptyString) => Some (if neg then - e else e)
        | (_, S _, String _ _) => None
        end
      else None
  end.

(** StrUnsignedDecimalLiteral, without the literal [Infinity]. *)
Definition unsigned_decimal (s : string) : option Q :=
  let '(ip, ilen, r1) := span_digits 10 0 0 s in
  let '(m, flen, dot, r2) :=
    match r1 with
    | String "." r =>
        let '(m, flen, r2) := span_digits 10 ip 0 r in (m, flen, true, r2)
    | _ => (ip, O, false, r1)
    end in
  match ilen, flen with
  | O, O => None
  | _, _ =>
      match exponent r2 with
      | Some e => Some (inject_Z m * Qpower 10 (e - Z.of_nat flen))%Q
      | None => None
      end
  end.

Definition radix_literal (base : Z) (s : string) : option Q :=
  match span_digits base 0 0 s with
  | (v, S _, EmptyString) => Some (inject_Z v)
  | _ => None
  end.

(** StrNumericLiteral. *)
Definition numeric_literal (s : string) : option Q :=
  match s with
  | String "0" (String c r) =>
      if Ascii.eqb c "x" || Ascii.eqb c "X" then radix_literal 16 r
      else if Ascii.eqb c "o" || Ascii.eqb c "O" then radix_literal 8 r
      else if Ascii.eqb c "b" || Ascii.eqb c "B" then radix_literal 2 r
      else unsigned_decimal s
  | String "+" r => unsigned_decimal r
  | String "-" r => option_map Qopp (unsigned_decimal r)
  | _ => unsigned_decimal s
  end.

(** StringToNumber: white space is trimmed, the empty string is 0, a
    numeric literal has its value and anything else is NaN. *)
Definition StringToNumber (s : string) : number :=
  let t := JsString.trim s in
  match t with
  | EmptyString => Fin 0
  | _ => match numeric_literal t with
         | Some q => Fin q
         | None => NaN
         end
  end.

(** ToIntegerOrInfinity on a finite number: truncation towards zero. *)
Definition truncate (q : Q) : Z :=
  if Qle_bool 0 q then Qfloor q else Qceiling q.

(** [x - 1]. *)
Definition pred (x : number) : number :=
  match x with
  | NaN => NaN
  | Fin q => Fin (q - 1)
  end.

End JsNumber.

(** ** Errors and results

    A JavaScript exception carries a constructor name and a message. *)

Record error : Type := mkError { err_name : string; err_message : string }.

Inductive result (A : Type) : Type :=
| Ok (a : A)
| Throw (e : error).
Arguments Ok {A} a.
Arguments Throw {A} e.

Definition bind {A B : Type} (r : result A) (k : A -> result B) : result B :=
  match r with
  | Ok a => k a
  | Throw e => Throw e
  end.

Notation "x <- r ;; k" := (bind r (fun x => k))
  (at level 61, r at next level, right associativity).

(** ** The Date object, in UTC

    A time value is a number of milliseconds since 1970-01-01T00:00:00Z, or
    NaN for an invalid date, here [None]. *)

Module JsDate.

Definition msPerDay : Z := 86400000.
Definition maxTime : Z := 8640000000000000.

Definition DayFromYear (y : Z) : Z :=
  365 * (y - 1970) + (y - 1969) / 4 - (y - 1901) / 100 + (y - 1601) / 400.

Definition InLeapYear (y : Z) : bool :=
  ((y mod 4 =? 0) && negb (y mod 100 =? 0)) || (y mod 400 =? 0).

(** Day within the year of the first day of month [mn] (0 is January). *)
Definition month_start (leap : bool) (mn : Z) : Z :=
  let l := if leap then 1 else 0 in
  nth (Z.to_nat mn)
    [0; 31; 59 + l; 90 + l; 120 + l; 151 + l; 181 + l; 212 + l; 243 + l;
     273 + l; 304 + l; 334 + l] 0.

(** MakeDay(year, month, 1): the month index rolls over into the year. *)
Definition MakeDay (year month : Z) : Z :=
  let ym := year + month / 12 in
  let mn := month mod 12 in
  DayFromYear ym + month_start (InLeapYear ym) mn.

Definition MakeFullYear (y : Z) : Z :=
  if (0 <=? y) && (y <=? 99) then 1900 + y else y.

Definition TimeClip (t : Z) : option Z :=
  if Z.abs t <=? maxTime then Some t else None.

(** [Date.UTC(year, month, 1, 0, 0, 0)]. *)
Definition UTC (year month : number) : option Z :=
  match year, month with
  | Fin y, Fin m =>
      let yr := MakeFullYear (JsNumber.truncate y) in
      TimeClip (MakeDay yr (JsNumber.truncate m) * msPerDay)
  | _, _ => None
  end.

(** Year, month (1 is January) and day of the month of a day number. *)
Definition civil_of_day (day : Z) : Z * Z * Z :=
  let z := day + 719468 in
  let era := z / 146097 in
  let doe := z - era * 146097 in
  let yoe := (doe - doe / 1460 + doe / 36524 - doe / 146096) / 365 in
  let doy := doe - (365 * yoe + yoe / 4 - yoe / 100) in
  let mp := (5 * doy + 2) / 153 in
  let d := doy - (153 * mp + 2) / 5 + 1 in
  let m := if mp <? 10 then mp + 3 else mp - 9 in
  (yoe + era * 400 + (if m <=? 2 then 1 else 0), m, d).

Definition digit (n : Z) : ascii := ascii_of_nat (48 + Z.to_nat (n mod 10)).

(** [n] in decimal on [width] characters, padded with zeros. *)
Fixpoint pad (width : nat) (n : Z) (acc : string) : string :=
  match width with
  | O => acc
  | S w => pad w (n / 10) (String (digit n) acc)
  end.

Definition year_string (y : Z) : string :=
  if (0 <=? y) && (y <=? 9999) then pad 4 y ""
  else String (if y <? 0 then "-"%char else "+"%char) (pad 6 (Z.abs y) "").

Definition time_string (ms : Z) : string :=
  pad 2 (ms / 3600000) ""
  ++ ":" ++ pad 2 (ms / 60000 mod 60) ""
  ++ ":" ++ pad 2 (ms / 1000 mod 60) ""
  ++ "." ++ pad 3 (ms mod 1000) "".

Definition iso_string (t : Z) : string :=
  let '(y, m, d) := civil_of_day (t / msPerDay) in
  year_string y ++ "-" ++ pad 2 m "" ++ "-" ++ pad 2 d ""
  ++ "T" ++ time_string (t mod msPerDay) ++ "Z".

(** [new Date(tv).toISOString()]: a RangeError on an invalid date. *)
Definition toISOString (tv : option Z) : result string :=
  match tv with
  | Some t => Ok (iso_string t)
  | None => Throw (mkError "RangeError" "Invalid time value")
  end.

End JsDate.

(** ** JavaScript values of the request *)

Inductive json : Type :=
| JNull
| JBool (b : bool)
| JNumber (q : Q)
| JString (s : string).

Inductive value : Type :=
| VUndefined
| VNull
| VBool (b : bool)
| VNumber (n : number)
| VString (s : string).

Definition of_json (j : json) : value :=
  match j with
  | JNull => VNull
  | JBool b => VBool b
  | JNumber q => VNumber (Fin q)
  | JString s => VString s
  end.

(** The parsed body: the entries of a JSON object, looked up by key. *)
Definition body : Type := list (string * json).

(** [body[k]]: [undefined] for a key the object does not have. *)
Fixpoint get (b : body) (k : string) : value :=
  match b with
  | [] => VUndefined
  | (k', j) :: b' => if String.eqb k' k then of_json j else get b' k
  end.

(** [Number(v)]. *)
Definition Number (v : value) : number :=
  match v with
  | VUndefined => NaN
  | VNull => Fin 0
  | VBool b => Fin (if b then 1 else 0)
  | VNumber n => n
  | VString s => JsNumber.StringToNumber s
  end.

(** ToBoolean. *)
Definition truthy (v : value) : bool :=
  match v with
  | VUndefined | VNull => false
  | VBool b => b
  | VNumber NaN => false
  | VNumber (Fin q) => negb (Qeq_bool q 0)
  | VString s => negb (String.eqb s "")
  end.

(** [v || null]. *)
Definition or_null (v : value) : value := if truthy v then v else VNull.

(** [v.trim()], where [path] is the source text of [v]. *)
Definition call_trim (path : string) (v : value) : result string :=
  match v with
  | VString s => Ok (JsString.trim s)
  | VUndefined =>
      Throw (mkError "TypeError"
               "Cannot read properties of undefined (reading 'trim')")
  | VNull =>
      Throw (mkError "TypeError"
               "Cannot read properties of null (reading 'trim')")
  | _ => Throw (mkError "TypeError" (path ++ ".trim is not a function"))
  end.

(** ** The feedback table *)

(** What a TEXT column holds: a bound string as it is, a bound number as
    its text rendering (which is never empty and is not spelled out here). *)
Inductive text : Type :=
| Text (s : string)
| TextOfNumber (q : Q).

Record feedback : Type := mkFeedback {
  id : Z;
  created_at : string;
  email : string;
  client_name : string;
  project : string;
  reactivity : Q;
  reactivity_suggestion : option text;
  deadlines : Q;
  deadlines_suggestion : option text;
  deliverables : Q;
  deliverables_suggestion : option text;
  professionalism : Q;
  professionalism_suggestion : option text;
  global_comment : option text
}.

(** The table, in insertion order. *)
Definition table : Type := list feedback.

Module Sqlite.

Definition bind_error : error :=
  mkError "TypeError"
    "SQLite3 can only bind numbers, strings, bigints, buffers, and null".

(** A bound parameter of a TEXT column without NOT NULL: the binder takes
    numbers, strings and null, and refuses a boolean or [undefined]; NaN is
    bound as NULL. *)
Definition bind_text (v : value) : result (option text) :=
  match v with
  | VNull => Ok None
  | VString s => Ok (Some (Text s))
  | VNumber NaN => Ok None
  | VNumber (Fin q) => Ok (Some (TextOfNumber q))
  | VBool _ | VUndefined => Throw bind_error
  end.

(** A bound number of an INTEGER NOT NULL column. *)
Definition not_null (column : string) (n : number) : result Q :=
  match n with
  | Fin q => Ok q
  | NaN =>
      Throw (mkError "SqliteError"
               ("NOT NULL constraint failed: feedback." ++ column))
  end.

(** UNIQUE(client_name, project), with the BINARY collation. *)
Definition same_key (c p : string) (r : feedback) : bool :=
  String.eqb (client_name r) c && String.eqb (project r) p.

Definition unique_error : error :=
  mkError "SqliteError"
    "UNIQUE constraint failed: feedback.client_name, feedback.project".

Definition unique (db : table) (c p : string) : result unit :=
  if existsb (same_key c p) db then Throw unique_error else Ok tt.

(** INTEGER PRIMARY KEY AUTOINCREMENT, in a table without deletions. *)
Definition next_id (db : table) : Z :=
  1 + fold_right (fun r m => Z.max (id r) m) 0 db.

(** [stmt.run(...)] of the INSERT statement, with its thirteen arguments
    in order: the parameters are bound, then the NOT NULL constraints are
    checked, then the UNIQUE constraint, then the row is appended. *)
Definition run (db : table) (created email client proj : string)
    (r : number) (rs : value) (d : number) (ds : value)
    (l : number) (ls : value) (p : number) (ps : value) (gc : value)
  : result table :=
  rs' <- bind_text rs ;;
  ds' <- bind_text ds ;;
  ls' <- bind_text ls ;;
  ps' <- bind_text ps ;;
  gc' <- bind_text gc ;;
  r' <- not_null "reactivity" r ;;
  d' <- not_null "deadlines" d ;;
  l' <- not_null "deliverables" l ;;
  p' <- not_null "professionalism" p ;;
  _ <- unique db client proj ;;
  Ok (List.app db
        [mkFeedback (next_id db) created email client proj
           r' rs' d' ds' l' ls' p' ps' gc']).

End Sqlite.

(** ** Responses *)

(** [req.query.month] when present: a string, or an array or object built
    by the query parser from repeated or bracketed keys. *)
Inductive query_value : Type :=
| QString (s : string)
| QNested.

Record stat : Type := mkStat {
  stat_project : string;
  responses : nat;
  avg_reactivity : Q;
  avg_deadlines : Q;
  avg_deliverables : Q;
  avg_professionalism : Q;
  avg_total : Q
}.

Record action : Type := mkAction {
  action_project : string;
  recommendations : list string
}.

Record report : Type := mkReport {
  report_month : query_value;
  report_start : string;
  report_end : string;
  projects : list stat;
  action_plan : list action
}.

Inductive payload : Type :=
| ErrorBody (error : string)
| ErrorDetails (error details : string)
| OkBody (message : string)
| ReportBody (r : report).

(** What a handler does: a JSON answer with a status, or an exception that
    leaves the handler, which the framework answers with status 500. *)
Inductive response : Type :=
| Json (status : Z) (p : payload)
| Uncaught (e : error).

Definition status_of (r : response) : Z :=
  match r with
  | Json s _ => s
  | Uncaught _ => 500
  end.

(** ** POST /api/feedback *)

Definition required : list string :=
  ["email"; "client_name"; "project"; "reactivity"; "deadlines";
   "deliverables"; "professionalism"].

(** [v === undefined || v === null || v === ""]. *)
Definition missing (v : value) : bool :=
  match v with
  | VUndefined | VNull => true
  | VString s => String.eqb s ""
  | _ => false
  end.

(** The loop over [required]: the first key whose field is missing. *)
Fixpoint first_missing (b : body) (ks : list string) : option string :=
  match ks with
  | [] => None
  | k :: ks' => if missing (get b k) then Some k else first_missing b ks'
  end.

(** The body of the [try] block: the arguments are evaluated from left to
    right, then the statement runs. [now] is the clock read by [new Date()]. *)
Definition try_insert (db : table) (now : Z) (b : body) : result table :=
  created <- JsDate.toISOString (Some now) ;;
  e <- call_trim "body.email" (get b "email") ;;
  c <- call_trim "body.client_name" (get b "client_name") ;;
  p <- call_trim "body.project" (get b "project") ;;
  Sqlite.run db created e c p
    (Number (get b "reactivity"))
    (or_null (get b "reactivity_suggestion"))
    (Number (get b "deadlines"))
    (or_null (get b "deadlines_suggestion"))
    (Number (get b "deliverables"))
    (or_null (get b "deliverables_suggestion"))
    (Number (get b "professionalism"))
    (or_null (get b "professionalism_suggestion"))
    (or_null (get b "global_comment")).

Definition duplicate_message : string :=
  "Ce client a déjà noté ce projet. Merci de choisir un autre projet.".

(** The handler: the response and the table after the request. *)
Definition post_feedback (db : table) (now : Z) (b : body)
  : response * table :=
  match first_missing b required with
  | Some k => (Json 400 (ErrorBody ("Missing field: " ++ k)), db)
  | None =>
      match try_insert db now b with
      | Ok db' => (Json 200 (OkBody "Feedback enregistré."), db')
      | Throw e =>
          if JsString.includes "UNIQUE" (err_message e)
          then (Json 409 (ErrorBody duplicate_message), db)
          else (Json 500 (ErrorDetails "Erreur serveur." (err_message e)), db)
      end
  end.

(** ** GET /api/stats *)

(** Element [i] of an array of numbers, [undefined] past its end. *)
Definition element (l : list number) (i : nat) : value :=
  match nth_error l i with
  | Some n => VNumber n
  | None => VUndefined
  end.

Definition monthRange (yyyyMm : query_value) : result (string * string) :=
  match yyyyMm with
  | QNested =>
      Throw (mkError "TypeError" "yyyyMm.split is not a function")
  | QString s =>
      let parts := map JsNumber.StringToNumber (JsString.split_on "-" s) in
      let y := element parts 0 in
      let m := element parts 1 in
      start <- JsDate.toISOString
                 (JsDate.UTC (Number y) (JsNumber.pred (Number m))) ;;
      end_ <- JsDate.toISOString (JsDate.UTC (Number y) (Number m)) ;;
      Ok (start, end_)
  end.

(** [SUM(x) / COUNT(x)] over the rows of a group, as the exact rational:
    the rounding of SQLite's doubles is not represented. *)
Definition AVG (l : list Q) : Q :=
  Qred (fold_right Qplus 0 l / inject_Z (Z.of_nat (List.length l)))%Q.

(** [(reactivity+deadlines+deliverables+professionalism)/4.0] of a row. *)
Definition row_total (r : feedback) : Q :=
  ((reactivity r + deadlines r + deliverables r + professionalism r) / 4)%Q.

(** [WHERE created_at >= ? AND created_at < ?], on TEXT. *)
Definition in_range (start end_ : string) (r : feedback) : bool :=
  String.leb start (created_at r) && String.ltb (created_at r) end_.

(** One output row of [GROUP BY project], from the rows of the group. *)
Definition aggregate (k : string) (g : list feedback) : stat :=
  mkStat k (List.length g)
    (AVG (map reactivity g)) (AVG (map deadlines g))
    (AVG (map deliverables g)) (AVG (map professionalism g))
    (AVG (map row_total g)).

Definition group_by_project (rows : list feedback) : list stat :=
  map (fun k => aggregate k (filter (fun r => String.eqb (project r) k) rows))
    (nodup string_dec (map project rows)).

(** [ORDER BY avg_total ASC]. SQL leaves the order of ties open; this sort
    keeps them in the order of the groups. *)
Fixpoint insert_stat (x : stat) (l : list stat) : list stat :=
  match l with
  | [] => [x]
  | y :: l' =>
      if Qle_bool (avg_total x) (avg_total y) then x :: l
      else y :: insert_stat x l'
  end.

Definition order_by_avg_total (l : list stat) : list stat :=
  fold_right insert_stat [] l.

(** The SELECT statement. *)
Definition select_stats (db : table) (start end_ : string) : list stat :=
  order_by_avg_total (group_by_project (filter (in_range start end_) db)).

Definition threshold : Q := 4.

(** [x < threshold]. *)
Definition below (x : Q) : bool := negb (Qle_bool threshold x).

Definition rec_reactivity : string :=
  "Réactivité: définir SLA (ex: réponse < 24h), point hebdo, canal unique.".
Definition rec_deadlines : string :=
  "Délais: jalons, buffer, suivi régulier, gestion risques.".
Definition rec_deliverables : string :=
  "Livrables: checklist qualité, revue interne, templates.".
Definition rec_professionalism : string :=
  "Pro/Innovation: REX mensuel, formation, partage bonnes pratiques.".

(** [a.push(x)] under a condition. *)
Definition push_if (c : bool) (x : string) (a : list string) : list string :=
  if c then List.app a [x] else a.

(** The array [a] of one iteration of the loop over the rows. *)
Definition recommend (r : stat) : list string :=
  let a := [] in
  let a := push_if (below (avg_reactivity r)) rec_reactivity a in
  let a := push_if (below (avg_deadlines r)) rec_deadlines a in
  let a := push_if (below (avg_deliverables r)) rec_deliverables a in
  let a := push_if (below (avg_professionalism r)) rec_professionalism a in
  a.

(** The loop over [rows], which pushes onto [actions]. *)
Fixpoint plan (rows : list stat) (actions : list action) : list action :=
  match rows with
  | [] => actions
  | r :: rows' =>
      let a := recommend r in
      plan rows'
        (match a with
         | [] => actions
         | _ :: _ => List.app actions [mkAction (stat_project r) a]
         end)
  end.

(** [!month]: no parameter, or the empty string. *)
Definition not_given (month : option query_value) : bool :=
  match month with
  | None => true
  | Some (QString s) => String.eqb s ""
  | Some QNested => false
  end.

Definition month_required : string := "month is required, e.g. 2026-01".

(** The handler; a request does not change the table. *)
Definition get_stats (db : table) (month : option query_value) : response :=
  if not_given month then Json 400 (ErrorBody month_required)
  else
    match month with
    | None => Json 400 (ErrorBody month_required)
    | Some q =>
        match monthRange q with
        | Throw e => Uncaught e
        | Ok (start, end_) =>
            let rows := select_stats db start end_ in
            let actions := plan rows [] in
            Json 200 (ReportBody (mkReport q start end_ rows actions))
        end
    end.

(** ** Notions used by the statements *)

(** A sequence of submissions, each with the clock it is handled at. *)
Fixpoint submit_all (db : table) (reqs : list (Z * body)) : table :=
  match reqs with
  | [] => db
  | (now, b) :: reqs' => submit_all (snd (post_feedback db now b)) reqs'
  end.

Definition key (r : feedback) : string * string :=
  (client_name r, project r).

(** An error the [catch] block does not take for a duplicate. *)
Definition quiet (e : error) : Prop :=
  JsString.includes "UNIQUE" (err_message e) = false.

Definition duplicate (db : table) (r : feedback) : bool :=
  existsb (Sqlite.same_key (client_name r) (project r)) db.

Definition answer_400 (k : string) : response :=
  Json 400 (ErrorBody ("Missing field: " ++ k)).
Definition answer_500 (e : error) : response :=
  Json 500 (ErrorDetails "Erreur serveur." (err_message e)).
Definition answer_409 : response := Json 409 (ErrorBody duplicate_message).
Definition answer_200 : response := Json 200 (OkBody "Feedback enregistré.").

(** Row [r] holds what the handler stores for body [b] at clock [now]. *)
Definition stored_from (b : body) (now : Z) (r : feedback) : Prop :=
  created_at r = JsDate.iso_string now
  /\ call_trim "body.email" (get b "email") = Ok (email r)
  /\ call_trim "body.client_name" (get b "client_name") = Ok (client_name r)
  /\ call_trim "body.project" (get b "project") = Ok (project r)
  /\ Number (get b "reactivity") = Fin (reactivity r)
  /\ Number (get b "deadlines") = Fin (deadlines r)
  /\ Number (get b "deliverables") = Fin (deliverables r)
  /\ Number (get b "professionalism") = Fin (professionalism r)
  /\ Sqlite.bind_text (or_null (get b "reactivity_suggestion"))
     = Ok (reactivity_suggestion r)
  /\ Sqlite.bind_text (or_null (get b "deadlines_suggestion"))
     = Ok (deadlines_suggestion r)
  /\ Sqlite.bind_text (or_null (get b "deliverables_suggestion"))
     = Ok (deliverables_suggestion r)
  /\ Sqlite.bind_text (or_null (get b "professionalism_suggestion"))
     = Ok (professionalism_suggestion r)
  /\ Sqlite.bind_text (or_null (get b "global_comment"))
     = Ok (global_comment r).





(** The action plan as the specification words it: four independent rules,
    each adding its own string when the average is strictly below 4. *)
Definition rule (avg : Q) (text : string) : list string :=
  if Qlt_le_dec avg 4 then [text] else [].

Definition spec_recommendations (s : stat) : list string :=
  List.app (rule (avg_reactivity s) rec_reactivity)
    (List.app (rule (avg_deadlines s) rec_deadlines)
       (List.app (rule (avg_deliverables s) rec_deliverables)
          (rule (avg_professionalism s) rec_professionalism))).

(** Some dimension average is strictly below the threshold. *)
Definition failing (s : stat) : bool :=
  below (avg_reactivity s) || below (avg_deadlines s)
  || below (avg_deliverables s) || below (avg_professionalism s).

Definition entry (s : stat) : action :=
  mkAction (stat_project s) (recommend s).

Definition le_total (s t : stat) : Prop := (avg_total s <= avg_total t)%Q.

(** The arithmetic mean of a list of numbers. *)
Definition mean (l : list Q) : Q :=
  (fold_right Qplus 0 l / inject_Z (Z.of_nat (List.length l)))%Q.

(** The rows of a project within an interval: the group behind one output
    row of the SELECT statement. *)
Definition responses_of (db : table) (start end_ k : string) : list feedback :=
  filter (fun r => String.eqb (project r) k) (filter (in_range start end_) db).

(** A non-empty string of decimal digits and the integer it writes. *)
Fixpoint all_digits (s : string) : bool :=
  match s with
  | EmptyString => true
  | String c r => JsNumber.is_digit c && all_digits r
  end.

Fixpoint decimal_value (acc : Z) (s : string) : Z :=
  match s with
  | EmptyString => acc
  | String c r => decimal_value (10 * acc + (Z.of_nat (nat_of_ascii c) - 48)) r
  end.

Definition decimal (s : string) (n : Z) : Prop :=
  s <> "" /\ all_digits s = true /\ decimal_value 0 s = n.

(** The time value of the first day of month index [month] of [year], as
    [Date.UTC] computes it when the result is in range. *)
Definition first_of_month (year month : Z) : Z :=
  JsDate.MakeDay (JsDate.MakeFullYear year) month * JsDate.msPerDay.

(** "YYYY-MM-01T00:00:00.000Z" *)
Definition midnight_string (year month : Z) : string :=
  JsDate.year_string year ++ "-" ++ JsDate.pad 2 month ""
  ++ "-01T00:00:00.000Z".

(** The first day of month [mn] of year [y] is mapped back to them. *)
Definition first_day_ok (y mn : Z) : bool :=
  let '(y', m, d) := JsDate.civil_of_day (JsDate.MakeDay y mn) in
  (y' =? y) && (m =? mn + 1) && (d =? 1).

Definition month_indices : list Z := [0; 1; 2; 3; 4; 5; 6; 7; 8; 9; 10; 11].

(** The 400 years of one cycle of the calendar. *)
Definition cycle_years : list Z := map Z.of_nat (seq 0 400).

(** The days of January 2026, as day numbers since the epoch. *)
Definition january_days : list Z :=
  map (fun k => 20454 + Z.of_nat k) (seq 0 31).

Definition january_day_ok (day : Z) : bool :=
  let '(y, m, d) := JsDate.civil_of_day day in
  (y =? 2026) && (m =? 1) && (d =? day - 20453).

(** ** Sample data *)

Definition submission (mail client proj : string) (r d l p : Q) : body :=
  [("email", JString mail); ("client_name", JString client);
   ("project", JString proj); ("reactivity", JNumber r);
   ("deadlines", JNumber d); ("deliverables", JNumber l);
   ("professionalism", JNumber p)].

(** 2026-01-15T12:00:00.000Z *)
Definition mid_january : Z := 1768478400000.

Definition sample_requests : list (Z * body) :=
  [(mid_january, submission "a@x.com" "Acme" "Portal" 5 5 5 5);
   (mid_january + 1, submission "a@x.com" "Acme" "Website" 2 5 5 5);
   (mid_january + 2, submission "b@y.org" "Beta" "Website" 4 4 4 4);
   (mid_january + 3, submission "b@y.org" "Beta" "Intranet" 3 4 5 2)].

Definition sample_db : table := submit_all [] sample_requests.

Definition zero_db : table :=
  submit_all [] [(mid_january, submission "z@x.com" "Zed" "Pilot" 0 0 0 0)].


(** The example of the specification. *)
Definition acme_website : body := submission "a@x.com" "Acme" "Website" 2 5 5 5.

Definition acme_row (now : Z) : feedback :=
  mkFeedback 1 (JsDate.iso_string now) "a@x.com" "Acme" "Website"
    2 None 5 None 5 None 5 None None.

Definition january_start : string := "2026-01-01T00:00:00.000Z".
Definition january_end : string := "2026-02-01T00:00:00.000Z".

Definition january : option query_value := Some (QString "2026-01").

Definition sample_report : report :=
  match get_stats sample_db january with
  | Json _ (ReportBody r) => r
  | _ => mkReport QNested "" "" [] []
  end.

(** ** Notions used by the further properties *)

(** The answers to a sequence of submissions, in order. *)
Fixpoint answers (db : table) (reqs : list (Z * body)) : list response :=
  match reqs with
  | [] => []
  | (now, b) :: reqs' =>
      fst (post_feedback db now b)
      :: answers (snd (post_feedback db now b)) reqs'
  end.

(** The ids of the table are 1, 2, 3, ... in order. *)
Definition numbered (db : table) : Prop :=
  map id db = map Z.of_nat (seq 1 (List.length db)).

Definition accepted (r : response) : bool := status_of r =? 200.

(** The three required fields that the handler trims. *)
Definition text_fields : list string := ["email"; "client_name"; "project"].

(** A value that has no [trim] method though it passes the required-field
    check: a number or a boolean. *)
Definition not_text (v : value) : Prop :=
  (exists n, v = VNumber n) \/ (exists x, v = VBool x).

Definition ratings (r : feedback) : list Q :=
  [reactivity r; deadlines r; deliverables r; professionalism r].

Definition averages (s : stat) : list Q :=
  [avg_reactivity s; avg_deadlines s; avg_deliverables s;
   avg_professionalism s; avg_total s].

Definition no_dash (s : string) : Prop :=
  forall c, In c (list_ascii_of_string s) -> c <> "-"%char.

Definition invalid_time : error := mkError "RangeError" "Invalid time value".

(** ** Notions used for the order of timestamps *)

(** The day number of the first day of the month [k] months after January
    of year 0. *)
Definition month_day (k : Z) : Z := JsDate.MakeDay 0 k.

Definition day_offsets : list Z := map Z.of_nat (seq 0 31).

(** Day [dd + 1] of month [mn] of year [y], a month that runs from day
    number [s] to day number [n], is mapped back to that date when the month
    has such a day. *)
Definition day_ok (y mn s n dd : Z) : bool :=
  if dd <? n - s then
    let '(y', m, d) := JsDate.civil_of_day (s + dd) in
    (y' =? y) && (m =? mn + 1) && (d =? dd + 1)
  else true.

(** Lexicographic comparison, as nested on the fields of a timestamp. *)
Definition then_compare (c : comparison) (rest : comparison) : comparison :=
  match c with
  | Eq => rest
  | _ => c
  end.

(** The instants written with a year of four digits: from the first
    instant of year 0 to the last of year 9999. *)
Definition year_0 : Z := -62167219200000.
Definition year_10000 : Z := 253402300800000.

Definition four_digit_year (t : Z) : Prop := year_0 <= t < year_10000.

Example trim_ex : JsString.trim "  Acme " = "Acme".
Proof. reflexivity. Qed.

Example split_ex : JsString.split_on "-" "2026-01" = ["2026"; "01"].
Proof. reflexivity. Qed.

Example number_ex :
  map JsNumber.StringToNumber ["2026"; "01"; ""; "0x10"; "abc"; " 7 "]
  = [Fin 2026; Fin 1; Fin 0; Fin 16; NaN; Fin 7].
Proof. vm_compute. reflexivity. Qed.

Example utc_ex :
  JsDate.UTC (Fin 2026) (Fin 0) = Some 1767225600000
  /\ JsDate.toISOString (JsDate.UTC (Fin 2026) (Fin 12))
     = Ok "2027-01-01T00:00:00.000Z"
  /\ JsDate.iso_string 951827696789 = "2000-02-29T12:34:56.789Z"
  /\ JsDate.iso_string (-1) = "1969-12-31T23:59:59.999Z"
  /\ JsDate.toISOString (JsDate.UTC (Fin 26) (Fin 0))
     = Ok "1926-01-01T00:00:00.000Z".
Proof. vm_compute. repeat split; reflexivity. Qed.

Example post_get_ex :
  let body1 :=
    [("email", JString "a@x.com"); ("client_name", JString " Acme ");
     ("project", JString "Website"); ("reactivity", JNumber 2);
     ("deadlines", JNumber 5); ("deliverables", JString "5");
     ("professionalism", JNumber 5)] in
  let '(r1, db1) := post_feedback [] 1768478400000 body1 in
  let '(r2, db2) := post_feedback db1 1768478400001 body1 in
  status_of r1 = 200 /\ status_of r2 = 409 /\ db2 = db1
  /\ map created_at db1 = ["2026-01-15T12:00:00.000Z"]
  /\ match get_stats db1 (Some (QString "2026-01")) with
     | Json 200 (ReportBody r) =>
         map avg_total (projects r) = [17 # 4]%Q
         /\ action_plan r = [mkAction "Website" [rec_reactivity]]
     | _ => False
     end
  /\ status_of (get_stats db1 (Some (QString "abc"))) = 500.
Proof. vm_compute. repeat split; reflexivity. Qed.

(** * Properties *)

(** ** The action plan *)

Section ActionPlan.

Lemma below_lt (x : Q) : below x = true <-> (x < 4)%Q.
Proof.
  unfold below, threshold. rewrite negb_true_iff.
  split; intro H.
  - apply Qnot_le_lt. intro L. apply Qle_bool_iff in L. congruence.
  - destruct (Qle_bool 4 x) eqn:E; [|reflexivity].
    apply Qle_bool_iff in E. exfalso. exact (Qlt_not_le _ _ H E).
Qed.

Lemma below_ge (x : Q) : below x = false <-> (4 <= x)%Q.
Proof.
  unfold below, threshold. rewrite negb_false_iff. apply Qle_bool_iff.
Qed.

Lemma push_if_rule (x : Q) (t : string) (a : list string) :
  push_if (below x) t a = List.app a (rule x t).
Proof.
  unfold push_if, rule.
  destruct (Qlt_le_dec x 4) as [L | G].
  - apply below_lt in L. now rewrite L.
  - apply below_ge in G. rewrite G. now rewrite app_nil_r.
Qed.

Lemma recommend_spec (s : stat) : recommend s = spec_recommendations s.
Proof.
  unfold recommend, spec_recommendations.
  rewrite !push_if_rule. simpl. now rewrite <- !app_assoc.
Qed.

Lemma recommend_nil (s : stat) : recommend s = [] <-> failing s = false.
Proof.
  unfold recommend, failing, push_if.
  destruct (below (avg_reactivity s)), (below (avg_deadlines s)),
    (below (avg_deliverables s)), (below (avg_professionalism s));
    simpl; split; (reflexivity || discriminate).
Qed.

Lemma plan_acc (rows : list stat) (acc : list action) :
  plan rows acc = List.app acc (map entry (filter failing rows)).
Proof.
  revert acc. induction rows as [|r rows IH]; intro acc; simpl.
  - now rewrite app_nil_r.
  - rewrite IH. destruct (recommend r) as [|x a] eqn:E.
    + apply recommend_nil in E. now rewrite E.
    + destruct (failing r) eqn:F.
      * simpl. unfold entry at 2. rewrite E. now rewrite <- app_assoc.
      * apply recommend_nil in F. congruence.
Qed.

Lemma plan_filter (rows : list stat) :
  plan rows [] = map entry (filter failing rows).
Proof. apply plan_acc. Qed.

Lemma failing_false (s : stat) :
  failing s = false <->
  (4 <= avg_reactivity s /\ 4 <= avg_deadlines s
   /\ 4 <= avg_deliverables s /\ 4 <= avg_professionalism s)%Q.
Proof.
  unfold failing. rewrite !orb_false_iff, !below_ge. tauto.
Qed.

End ActionPlan.

(** ** The SELECT statement: grouping and ordering *)

Section Select.

Lemma insert_stat_perm (x : stat) (l : list stat) :
  Permutation (insert_stat x l) (x :: l).
Proof.
  induction l as [|y l IH]; simpl.
  - apply Permutation_refl.
  - destruct (Qle_bool (avg_total x) (avg_total y)).
    + apply Permutation_refl.
    + eapply perm_trans; [apply perm_skip, IH | apply perm_swap].
Qed.

Lemma order_perm (l : list stat) : Permutation (order_by_avg_total l) l.
Proof.
  induction l as [|x l IH]; simpl.
  - constructor.
  - eapply perm_trans; [apply insert_stat_perm | now apply perm_skip].
Qed.

Lemma insert_stat_hd (x a : stat) (l : list stat) :
  le_total a x -> HdRel le_total a l -> HdRel le_total a (insert_stat x l).
Proof.
  intros Hax Hl. destruct l as [|y l]; simpl.
  - now constructor.
  - destruct (Qle_bool (avg_total x) (avg_total y)); constructor;
      [assumption | now inversion Hl].
Qed.

Lemma insert_stat_sorted (x : stat) (l : list stat) :
  Sorted le_total l -> Sorted le_total (insert_stat x l).
Proof.
  induction 1 as [|y l Hs IH Hhd]; simpl.
  - repeat constructor.
  - destruct (Qle_bool (avg_total x) (avg_total y)) eqn:E.
    + apply Qle_bool_iff in E. repeat constructor; assumption.
    + constructor; [exact IH|].
      apply insert_stat_hd; [|exact Hhd].
      unfold le_total. apply Qlt_le_weak, Qnot_le_lt.
      intro L. apply Qle_bool_iff in L. congruence.
Qed.

Lemma order_sorted (l : list stat) : Sorted le_total (order_by_avg_total l).
Proof.
  induction l as [|x l IH]; simpl; [constructor|].
  now apply insert_stat_sorted.
Qed.

Lemma le_total_trans : Relations_1.Transitive le_total.
Proof. intros a b c. unfold le_total. apply Qle_trans. Qed.

Lemma order_strongly_sorted (l : list stat) :
  StronglySorted Qle (map avg_total (order_by_avg_total l)).
Proof.
  pose proof (Sorted_StronglySorted le_total_trans (order_sorted l)) as H.
  induction H as [|a l' _ IH Hall]; simpl; constructor.
  - exact IH.
  - rewrite Forall_forall in *. intros q Hq.
    apply in_map_iff in Hq. destruct Hq as [t [<- Ht]]. now apply Hall.
Qed.

Lemma group_projects (rows : list feedback) :
  map stat_project (group_by_project rows)
  = nodup string_dec (map project rows).
Proof.
  unfold group_by_project. rewrite map_map. simpl. apply map_id.
Qed.

Lemma select_projects_nodup (db : table) (start end_ : string) :
  NoDup (map stat_project (select_stats db start end_)).
Proof.
  unfold select_stats.
  eapply Permutation_NoDup.
  - apply Permutation_sym, Permutation_map, order_perm.
  - rewrite group_projects. apply NoDup_nodup.
Qed.

(** What a 200 answer of the stats route is made of. *)
Lemma get_stats_200 (db : table) (month : option query_value) (r : report) :
  get_stats db month = Json 200 (ReportBody r) ->
  exists q start end_,
    month = Some q /\ monthRange q = Ok (start, end_)
    /\ r = mkReport q start end_ (select_stats db start end_)
             (plan (select_stats db start end_) []).
Proof.
  unfold get_stats. destruct (not_given month); [discriminate|].
  destruct month as [q|]; [|discriminate].
  destruct (monthRange q) as [[start end_]|e] eqn:E; [|discriminate].
  intro H. injection H as <-. exists q, start, end_. now repeat split.
Qed.

End Select.

(** C6: the projects list of every stats response holds exactly the
    groups of the query, one per project of the interval, rearranged in
    ascending order of avg_total, so that the first project of the list has
    the smallest avg_total of all the groups: the worst-performing project
    comes first. *)
Theorem C6_projects_ascending (db : table) (month : option query_value)
    (r : report) :
  get_stats db month = Json 200 (ReportBody r) ->
  let groups :=
    group_by_project
      (filter (in_range (report_start r) (report_end r)) db) in
  Permutation (projects r) groups
  /\ StronglySorted Qle (map avg_total (projects r))
  /\ (forall first rest, projects r = first :: rest ->
        forall s, In s groups -> (avg_total first <= avg_total s)%Q).
Proof.
  intro H. apply get_stats_200 in H.
  destruct H as (q & start & end_ & _ & _ & ->).
  cbn [projects report_start report_end]. cbv zeta.
  assert (P : Permutation (select_stats db start end_)
                (group_by_project (filter (in_range start end_) db)))
    by apply order_perm.
  assert (S : StronglySorted Qle (map avg_total (select_stats db start end_)))
    by apply order_strongly_sorted.
  split; [exact P|]. split; [exact S|].
  intros first rest E s Hs.
  apply (Permutation_in _ (Permutation_sym P)) in Hs.
  rewrite E in S, Hs. cbn [map] in S.
  inversion S as [|? ? _ A]; subst.
  destruct Hs as [<- | Hs]; [apply Qle_refl|].
  rewrite Forall_forall in A. apply A. now apply in_map.
Qed.

Lemma C6_projects_ascending_witness :
  get_stats sample_db january = Json 200 (ReportBody sample_report)
  /\ map stat_project (projects sample_report)
     = ["Intranet"; "Website"; "Portal"]
  /\ Permutation (projects sample_report)
       (group_by_project
          (filter (in_range (report_start sample_report)
                     (report_end sample_report)) sample_db))
  /\ StronglySorted Qle (map avg_total (projects sample_report)).
Proof.
  assert (H : get_stats sample_db january = Json 200 (ReportBody sample_report))
    by (vm_compute; reflexivity).
  split; [exact H|]. split; [vm_compute; reflexivity|].
  destruct (C6_projects_ascending sample_db january _ H) as (P & S & _).
  split; [exact P | exact S].
Defined.

(** C9: the action plan lists exactly the projects of the projects list
    that have some dimension average strictly below 4, in the order of the
    projects list, which is ascending in avg_total. *)
Theorem C9_action_plan_filter (db : table) (month : option query_value)
    (r : report) :
  get_stats db month = Json 200 (ReportBody r) ->
  action_plan r = map entry (filter failing (projects r))
  /\ map action_project (action_plan r)
     = map stat_project (filter failing (projects r))
  /\ (forall s, failing s = true <->
        (avg_reactivity s < 4 \/ avg_deadlines s < 4
         \/ avg_deliverables s < 4 \/ avg_professionalism s < 4)%Q)
  /\ StronglySorted Qle (map avg_total (projects r)).
Proof.
  intro H.
  apply get_stats_200 in H.
  destruct H as (q & start & end_ & Hm & Hr & ->). simpl.
  repeat split.
  - apply plan_filter.
  - rewrite plan_filter, map_map. reflexivity.
  - unfold failing. rewrite !orb_true_iff, !below_lt. tauto.
  - unfold failing. rewrite !orb_true_iff, !below_lt. tauto.
  - apply order_strongly_sorted.
Qed.

Lemma C9_action_plan_filter_witness :
  get_stats sample_db january = Json 200 (ReportBody sample_report)
  /\ map action_project (action_plan sample_report) = ["Intranet"; "Website"].
Proof.
  assert (H : get_stats sample_db january = Json 200 (ReportBody sample_report))
    by (vm_compute; reflexivity).
  split; [exact H|].
  destruct (C9_action_plan_filter sample_db january _ H) as (_ & -> & _).
  vm_compute. reflexivity.
Defined.

Lemma recommend_counts (s : stat) :
  let once (b : bool) := if b then 1%nat else 0%nat in
  count_occ string_dec (recommend s) rec_reactivity
  = once (below (avg_reactivity s))
  /\ count_occ string_dec (recommend s) rec_deadlines
     = once (below (avg_deadlines s))
  /\ count_occ string_dec (recommend s) rec_deliverables
     = once (below (avg_deliverables s))
  /\ count_occ string_dec (recommend s) rec_professionalism
     = once (below (avg_professionalism s)).
Proof.
  unfold recommend, push_if.
  destruct (below (avg_reactivity s)), (below (avg_deadlines s)),
    (below (avg_deliverables s)), (below (avg_professionalism s));
    vm_compute; repeat split; reflexivity.
Qed.

Lemma in_map_nodup {A B : Type} (f : A -> B) (l : list A) (x y : A) :
  NoDup (map f l) -> In x l -> In y l -> f x = f y -> x = y.
Proof.
  induction l as [|a l IH]; simpl; intros N Hx Hy E; [contradiction|].
  inversion N as [|? ? Hnot N']; subst.
  destruct Hx as [-> | Hx], Hy as [-> | Hy]; auto.
  - exfalso. apply Hnot. rewrite E. now apply in_map.
  - exfalso. apply Hnot. rewrite <- E. now apply in_map.
Qed.

(** C5: for every project of a monthly report the action plan applies four
    independent rules with threshold 4 and strict less-than: a dimension
    average strictly below 4 contributes its one fixed string exactly once, a
    dimension average of at least 4 contributes nothing, the entry of the
    project holds exactly these strings, and a project whose four averages
    are all at least 4 is absent from the action plan. *)
Theorem C5_threshold_rules (db : table) (month : option query_value)
    (r : report) (s : stat) :
  get_stats db month = Json 200 (ReportBody r) ->
  In s (projects r) ->
  let contributes (avg : Q) (text : string) (l : list string) :=
    ((avg < 4)%Q -> count_occ string_dec l text = 1%nat)
    /\ ((4 <= avg)%Q -> ~ In text l) in
  recommend s = spec_recommendations s
  /\ contributes (avg_reactivity s) rec_reactivity (recommend s)
  /\ contributes (avg_deadlines s) rec_deadlines (recommend s)
  /\ contributes (avg_deliverables s) rec_deliverables (recommend s)
  /\ contributes (avg_professionalism s) rec_professionalism (recommend s)
  /\ (forall a, In a (action_plan r) ->
        action_project a = stat_project s ->
        recommendations a = spec_recommendations s)
  /\ ((avg_reactivity s < 4 \/ avg_deadlines s < 4
       \/ avg_deliverables s < 4 \/ avg_professionalism s < 4)%Q ->
      In (mkAction (stat_project s) (spec_recommendations s)) (action_plan r))
  /\ ((4 <= avg_reactivity s /\ 4 <= avg_deadlines s
       /\ 4 <= avg_deliverables s /\ 4 <= avg_professionalism s)%Q ->
      ~ In (stat_project s) (map action_project (action_plan r))).
Proof.
  intros H Hs contributes.
  apply get_stats_200 in H.
  destruct H as (q & start & end_ & _ & _ & ->). simpl in *.
  pose proof (select_projects_nodup db start end_) as N.
  rewrite plan_filter.
  assert (C : forall avg text,
             count_occ string_dec (recommend s) text
             = (if below avg then 1%nat else 0%nat) ->
             contributes avg text (recommend s)).
  { intros avg text E. split.
    - intro L. apply below_lt in L. now rewrite E, L.
    - intro G. apply below_ge in G. rewrite G in E.
      now apply (count_occ_not_In string_dec). }
  destruct (recommend_counts s) as (C1 & C2 & C3 & C4).
  assert (Same : forall t, In t (select_stats db start end_) ->
                 stat_project t = stat_project s -> t = s).
  { intros t Ht E. exact (in_map_nodup stat_project _ t s N Ht Hs E). }
  split; [apply recommend_spec|].
  split; [exact (C _ _ C1)|]. split; [exact (C _ _ C2)|].
  split; [exact (C _ _ C3)|]. split; [exact (C _ _ C4)|].
  split; [|split].
  - intros a Ha E. apply in_map_iff in Ha. destruct Ha as [t [<- Ht]].
    apply filter_In in Ht. destruct Ht as [Ht _]. simpl in E.
    rewrite (Same t Ht E). apply recommend_spec.
  - intro L. rewrite <- recommend_spec.
    change (In (entry s) (map entry (filter failing (select_stats db start end_)))).
    apply in_map, filter_In. split; [exact Hs|].
    unfold failing. rewrite !orb_true_iff, !below_lt. tauto.
  - intros G Hin. apply failing_false in G.
    rewrite map_map in Hin. simpl in Hin.
    apply in_map_iff in Hin. destruct Hin as [t [E Ht]].
    apply filter_In in Ht. destruct Ht as [Ht F].
    rewrite (Same t Ht E) in F. congruence.
Qed.

Lemma C5_threshold_rules_witness :
  get_stats sample_db january = Json 200 (ReportBody sample_report)
  /\ In (mkStat "Website" 2 3 (9 # 2) (9 # 2) (9 # 2) (33 # 8))
       (projects sample_report)
  /\ In (mkAction "Website" [rec_reactivity]) (action_plan sample_report).
Proof.
  assert (H : get_stats sample_db january = Json 200 (ReportBody sample_report))
    by (vm_compute; reflexivity).
  assert (I : In (mkStat "Website" 2 3 (9 # 2) (9 # 2) (9 # 2) (33 # 8))
                (projects sample_report))
    by (vm_compute; right; left; reflexivity).
  split; [exact H | split; [exact I|]].
  destruct (C5_threshold_rules sample_db january _ _ H I)
    as (_ & _ & _ & _ & _ & _ & P & _).
  apply P. left. reflexivity.
Defined.

(** ** Averages *)

Section Averages.

Lemma AVG_mean (l : list Q) : (AVG l == mean l)%Q.
Proof. unfold AVG, mean. apply Qred_correct. Qed.

Lemma sum_row_total (g : list feedback) :
  (fold_right Qplus 0 (map row_total g)
   == (fold_right Qplus 0 (map reactivity g)
       + fold_right Qplus 0 (map deadlines g)
       + fold_right Qplus 0 (map deliverables g)
       + fold_right Qplus 0 (map professionalism g)) / 4)%Q.
Proof.
  induction g as [|r g IH]; simpl.
  - reflexivity.
  - rewrite IH. unfold row_total. field.
Qed.

Lemma mean_row_total (g : list feedback) :
  (mean (map row_total g)
   == (mean (map reactivity g) + mean (map deadlines g)
       + mean (map deliverables g) + mean (map professionalism g)) / 4)%Q.
Proof.
  unfold mean. rewrite sum_row_total, !length_map.
  unfold Qdiv. ring.
Qed.

(** Every output row of the SELECT statement aggregates a non-empty group. *)
Lemma select_stats_in (db : table) (start end_ : string) (s : stat) :
  In s (select_stats db start end_) ->
  let g := responses_of db start end_ (stat_project s) in
  g <> [] /\ s = aggregate (stat_project s) g.
Proof.
  unfold select_stats. intro H.
  apply (Permutation_in _ (order_perm _)) in H.
  unfold group_by_project in H. apply in_map_iff in H.
  destruct H as [k [<- Hk]]. simpl. split; [|reflexivity].
  apply nodup_In, in_map_iff in Hk. destruct Hk as [r [E Hr]].
  intro N.
  assert (I : In r (responses_of db start end_ k)).
  { apply filter_In. split; [exact Hr|]. now apply String.eqb_eq. }
  unfold responses_of in *. rewrite N in I. exact I.
Qed.

Lemma aggregate_spec (k : string) (g : list feedback) :
  let s := aggregate k g in
  (responses s = List.length g
   /\ avg_reactivity s == mean (map reactivity g)
   /\ avg_deadlines s == mean (map deadlines g)
   /\ avg_deliverables s == mean (map deliverables g)
   /\ avg_professionalism s == mean (map professionalism g)
   /\ avg_total s == mean (map row_total g)
   /\ avg_total s == (avg_reactivity s + avg_deadlines s
                      + avg_deliverables s + avg_professionalism s) / 4)%Q.
Proof.
  simpl. rewrite !AVG_mean, mean_row_total.
  repeat split; reflexivity.
Qed.

End Averages.

(** C2, as the code has it: avg_total of a project is the mean, over the
    responses of the project in the month, of the per-response score
    (reactivity+deadlines+deliverables+professionalism)/4; over exact
    arithmetic this is the same number as the mean of the four dimension
    averages of the project. *)
Theorem C2_avg_total (db : table) (month : option query_value)
    (r : report) (s : stat) :
  get_stats db month = Json 200 (ReportBody r) ->
  In s (projects r) ->
  let g := responses_of db (report_start r) (report_end r) (stat_project s) in
  (g <> [] /\ responses s = List.length g
   /\ avg_reactivity s == mean (map reactivity g)
   /\ avg_deadlines s == mean (map deadlines g)
   /\ avg_deliverables s == mean (map deliverables g)
   /\ avg_professionalism s == mean (map professionalism g)
   /\ avg_total s == mean (map row_total g)
   /\ avg_total s == (avg_reactivity s + avg_deadlines s
                      + avg_deliverables s + avg_professionalism s) / 4)%Q.
Proof.
  intros H Hs.
  apply get_stats_200 in H.
  destruct H as (q & start & end_ & _ & _ & ->). simpl in *.
  destruct (select_stats_in db start end_ s Hs) as [N E].
  split; [exact N|].
  pose proof (aggregate_spec (stat_project s)
                (responses_of db start end_ (stat_project s))) as A.
  rewrite <- E in A. exact A.
Qed.

Lemma C2_avg_total_witness :
  get_stats sample_db january = Json 200 (ReportBody sample_report)
  /\ In (mkStat "Website" 2 3 (9 # 2) (9 # 2) (9 # 2) (33 # 8))
       (projects sample_report)
  /\ (33 # 8 == (3 + (9 # 2) + (9 # 2) + (9 # 2)) / 4)%Q.
Proof.
  assert (H : get_stats sample_db january = Json 200 (ReportBody sample_report))
    by (vm_compute; reflexivity).
  assert (I : In (mkStat "Website" 2 3 (9 # 2) (9 # 2) (9 # 2) (33 # 8))
                (projects sample_report))
    by (vm_compute; right; left; reflexivity).
  split; [exact H | split; [exact I|]].
  destruct (C2_avg_total sample_db january _ _ H I)
    as (_ & _ & _ & _ & _ & _ & _ & P).
  exact P.
Defined.

(** C2 as stated fails: avg_total is the mean of the raw per-response
    scores. For project Website of the sample, with the responses
    (2,5,5,5) and (4,4,4,4), it is 33/8, the mean of 17/4 and 4; and for a
    response with four ratings 0 it is even the mean of the per-response
    sums. *)
Lemma C2_counterexample :
  (exists s,
     In s (projects sample_report) /\ stat_project s = "Website"
     /\ map row_total
          (responses_of sample_db (report_start sample_report)
             (report_end sample_report) "Website")
        = [(2 + 5 + 5 + 5) / 4; (4 + 4 + 4 + 4) / 4]
     /\ avg_total s == ((2 + 5 + 5 + 5) / 4 + (4 + 4 + 4 + 4) / 4) / 2)%Q
  /\ (exists r s,
        get_stats zero_db january = Json 200 (ReportBody r)
        /\ projects r = [s]
        /\ avg_total s == (0 + 0 + 0 + 0) / 1)%Q.
Proof.
  split.
  - exists (mkStat "Website" 2 3 (9 # 2) (9 # 2) (9 # 2) (33 # 8)).
    split; [vm_compute; right; left; reflexivity|].
    split; [reflexivity|].
    split; vm_compute; reflexivity.
  - eexists. eexists.
    split; [vm_compute; reflexivity|].
    split; [reflexivity|].
    vm_compute. reflexivity.
Qed.

(** ** The INSERT statement and the submission handler *)

Section Submission.

Lemma call_trim_quiet (path : string) (v : value) (e : error) :
  In path ["body.email"; "body.client_name"; "body.project"] ->
  call_trim path v = Throw e -> quiet e.
Proof.
  intros Hp H.
  destruct v; simpl in H; try discriminate; injection H as <-;
    try reflexivity;
    simpl in Hp; decompose [or] Hp; subst; try contradiction; reflexivity.
Qed.

Lemma bind_text_quiet (v : value) (e : error) :
  Sqlite.bind_text v = Throw e -> quiet e.
Proof.
  destruct v as [| | |[|]|]; simpl; intro H; try discriminate;
    injection H as <-; reflexivity.
Qed.

Lemma not_null_quiet (column : string) (n : number) (e : error) :
  In column ["reactivity"; "deadlines"; "deliverables"; "professionalism"] ->
  Sqlite.not_null column n = Throw e -> quiet e.
Proof.
  intros Hc H. destruct n; simpl in H; [|discriminate]. injection H as <-.
  simpl in Hc; decompose [or] Hc; subst; try contradiction; reflexivity.
Qed.

Ltac quiet_failure lemma E :=
  left; eexists; split;
  [ eapply lemma; [| exact E]; simpl; tauto
  | intro; reflexivity ].

(** The [try] block either fails the same way on every table, with an
    error that does not mention UNIQUE, or it is decided by the UNIQUE
    constraint alone. *)
Lemma try_insert_cases (now : Z) (b : body) :
  (exists e, quiet e /\ forall db, try_insert db now b = Throw e)
  \/ (exists row : Z -> feedback,
        (forall i, stored_from b now (row i) /\ id (row i) = i
                   /\ key (row i) = key (row 0))
        /\ forall db,
             try_insert db now b
             = if duplicate db (row 0)
               then Throw Sqlite.unique_error
               else Ok (List.app db [row (Sqlite.next_id db)])).
Proof.
  unfold try_insert, Sqlite.run.
  destruct (call_trim "body.email" (get b "email")) as [e|x] eqn:E1;
    [|quiet_failure call_trim_quiet E1].
  destruct (call_trim "body.client_name" (get b "client_name"))
    as [c|x] eqn:E2; [|quiet_failure call_trim_quiet E2].
  destruct (call_trim "body.project" (get b "project")) as [p|x] eqn:E3;
    [|quiet_failure call_trim_quiet E3].
  destruct (Sqlite.bind_text (or_null (get b "reactivity_suggestion")))
    as [rs|x] eqn:B1;
    [|left; exists x; split; [exact (bind_text_quiet _ _ B1)|reflexivity]].
  destruct (Sqlite.bind_text (or_null (get b "deadlines_suggestion")))
    as [ds|x] eqn:B2;
    [|left; exists x; split; [exact (bind_text_quiet _ _ B2)|reflexivity]].
  destruct (Sqlite.bind_text (or_null (get b "deliverables_suggestion")))
    as [ls|x] eqn:B3;
    [|left; exists x; split; [exact (bind_text_quiet _ _ B3)|reflexivity]].
  destruct (Sqlite.bind_text (or_null (get b "professionalism_suggestion")))
    as [ps|x] eqn:B4;
    [|left; exists x; split; [exact (bind_text_quiet _ _ B4)|reflexivity]].
  destruct (Sqlite.bind_text (or_null (get b "global_comment")))
    as [gc|x] eqn:B5;
    [|left; exists x; split; [exact (bind_text_quiet _ _ B5)|reflexivity]].
  destruct (Number (get b "reactivity")) as [|r] eqn:N1;
    [left; eexists; split; [|intro; reflexivity]; reflexivity|].
  destruct (Number (get b "deadlines")) as [|d] eqn:N2;
    [left; eexists; split; [|intro; reflexivity]; reflexivity|].
  destruct (Number (get b "deliverables")) as [|l] eqn:N3;
    [left; eexists; split; [|intro; reflexivity]; reflexivity|].
  destruct (Number (get b "professionalism")) as [|pf] eqn:N4;
    [left; eexists; split; [|intro; reflexivity]; reflexivity|].
  right.
  exists (fun i => mkFeedback i (JsDate.iso_string now) e c p
                     r rs d ds l ls pf ps gc).
  split.
  - intro i. unfold stored_from. simpl.
    repeat split; (assumption || reflexivity).
  - intro db. unfold duplicate. simpl. unfold Sqlite.unique.
    destruct (existsb (Sqlite.same_key c p) db); reflexivity.
Qed.

Lemma first_missing_some (b : body) (ks : list string) (k : string) :
  first_missing b ks = Some k -> In k ks /\ missing (get b k) = true.
Proof.
  induction ks as [|k' ks IH]; simpl; [discriminate|].
  destruct (missing (get b k')) eqn:M.
  - intro H. injection H as <-. auto.
  - intro H. destruct (IH H). auto.
Qed.

Lemma first_missing_none (b : body) (ks : list string) :
  first_missing b ks = None <->
  forall k, In k ks -> missing (get b k) = false.
Proof.
  induction ks as [|k' ks IH]; simpl.
  - split; [intros _ k []|reflexivity].
  - destruct (missing (get b k')) eqn:M.
    + split; [discriminate|]. intro H.
      rewrite (H k' (or_introl eq_refl)) in M. discriminate.
    + rewrite IH. split; [intros H k [<-|Hk]; auto|auto].
Qed.

(** The three ways a submission is handled; which one applies does not
    depend on the table, except for the UNIQUE constraint. *)
Lemma post_cases (now : Z) (b : body) :
  (exists k, In k required /\ missing (get b k) = true
             /\ forall db, post_feedback db now b = (answer_400 k, db))
  \/ ((forall k, In k required -> missing (get b k) = false)
      /\ exists e, quiet e
           /\ forall db, post_feedback db now b = (answer_500 e, db))
  \/ ((forall k, In k required -> missing (get b k) = false)
      /\ exists row : Z -> feedback,
           (forall i, stored_from b now (row i) /\ id (row i) = i
                      /\ key (row i) = key (row 0))
           /\ forall db,
                post_feedback db now b
                = if duplicate db (row 0) then (answer_409, db)
                  else (answer_200, List.app db [row (Sqlite.next_id db)])).
Proof.
  unfold post_feedback.
  destruct (first_missing b required) as [k|] eqn:F.
  - left. exists k. apply first_missing_some in F. tauto.
  - pose proof (proj1 (first_missing_none b required) F) as F'.
    clear F. rename F' into F. right.
    destruct (try_insert_cases now b) as [(e & Q & T) | (row & R & T)].
    + left. split; [exact F|]. exists e. split; [exact Q|].
      intro db. rewrite T. unfold quiet in Q. now rewrite Q.
    + right. split; [exact F|]. exists row. split; [exact R|].
      intro db. rewrite T. destruct (duplicate db (row 0)); reflexivity.
Qed.

End Submission.

(** ** One record per client and project *)

Section Uniqueness.

Lemma same_key_iff (c p : string) (r : feedback) :
  Sqlite.same_key c p r = true <-> key r = (c, p).
Proof.
  unfold Sqlite.same_key, key.
  rewrite andb_true_iff, !String.eqb_eq.
  split; [intros [-> ->]; reflexivity | intro H; now inversion H].
Qed.

Lemma duplicate_in (db : table) (r : feedback) :
  duplicate db r = true <-> In (key r) (map key db).
Proof.
  unfold duplicate. rewrite existsb_exists, in_map_iff.
  split; intros [x H]; exists x.
  - destruct H as [Hx H]. apply same_key_iff in H. auto.
  - destruct H as [H Hx]. split; [exact Hx|]. now apply same_key_iff.
Qed.

Lemma nodup_snoc {A : Type} (l : list A) (x : A) :
  NoDup l -> ~ In x l -> NoDup (List.app l [x]).
Proof.
  induction l as [|a l IH]; simpl; intros N H.
  - constructor; [intros []|constructor].
  - inversion N as [|? ? Ha N']; subst. constructor.
    + intro I. apply in_app_or in I. destruct I as [I | [-> | []]].
      * now apply Ha.
      * apply H. now left.
    + apply IH; [exact N'|]. intro I. apply H. now right.
Qed.

Lemma post_nodup (db : table) (now : Z) (b : body) :
  NoDup (map key db) -> NoDup (map key (snd (post_feedback db now b))).
Proof.
  intro N.
  destruct (post_cases now b)
    as [(k & _ & _ & P) | [(_ & e & _ & P) | (_ & row & R & P)]];
    rewrite P; try exact N.
  destruct (duplicate db (row 0)) eqn:D; [exact N|]. simpl.
  rewrite map_app. simpl. apply nodup_snoc; [exact N|].
  destruct (R (Sqlite.next_id db)) as (_ & _ & ->).
  intro I. apply duplicate_in in I. congruence.
Qed.

Lemma submit_all_nodup (reqs : list (Z * body)) (db : table) :
  NoDup (map key db) -> NoDup (map key (submit_all db reqs)).
Proof.
  revert db. induction reqs as [|[now b] reqs IH]; intros db N; simpl.
  - exact N.
  - apply IH, post_nodup, N.
Qed.

Lemma one_record (db : table) (c p : string) :
  NoDup (map key db) -> In (c, p) (map key db) ->
  List.length (filter (Sqlite.same_key c p) db) = 1%nat.
Proof.
  induction db as [|r db IH]; simpl; intros N I; [contradiction|].
  inversion N as [|? ? Hnot N']; subst.
  destruct (Sqlite.same_key c p r) eqn:E.
  - apply same_key_iff in E. simpl. f_equal.
    rewrite E in Hnot.
    destruct (filter (Sqlite.same_key c p) db) as [|x l] eqn:F; [reflexivity|].
    exfalso. apply Hnot.
    assert (Hx : In x (filter (Sqlite.same_key c p) db))
      by (rewrite F; now left).
    apply filter_In in Hx. destruct Hx as [Hx K].
    apply same_key_iff in K. rewrite <- K. now apply in_map.
  - destruct I as [I | I]; [|now apply IH].
    apply same_key_iff in I. congruence.
Qed.

End Uniqueness.

(** C1: after every sequence of submissions the table holds at most one
    record per (client_name, project); a further submission whose trimmed
    client_name and project are those of a stored record is not answered 200
    and leaves the table as it is, with exactly one record of that pair; and
    when nothing else is wrong with it (the same request is accepted on an
    empty table) the answer is 409 with the duplicate message. *)
Theorem C1_unique_pair (reqs : list (Z * body)) (now : Z) (b : body)
    (c p : string) :
  let db := submit_all [] reqs in
  NoDup (map key db)
  /\ (get b "client_name" = VString c ->
      get b "project" = VString p ->
      In (JsString.trim c, JsString.trim p) (map key db) ->
      status_of (fst (post_feedback db now b)) <> 200
      /\ snd (post_feedback db now b) = db
      /\ List.length
           (filter (Sqlite.same_key (JsString.trim c) (JsString.trim p))
              (snd (post_feedback db now b))) = 1%nat
      /\ (fst (post_feedback [] now b) = answer_200 ->
          fst (post_feedback db now b) = answer_409)).
Proof.
  intro db.
  assert (N : NoDup (map key db)) by (apply submit_all_nodup; constructor).
  split; [exact N|]. intros Hc Hp I.
  assert (Same : snd (post_feedback db now b) = db
                 -> List.length
                      (filter (Sqlite.same_key (JsString.trim c)
                                 (JsString.trim p))
                         (snd (post_feedback db now b))) = 1%nat).
  { intros ->. now apply one_record. }
  destruct (post_cases now b)
    as [(k & _ & _ & P) | [(_ & e & _ & P) | (_ & row & R & P)]].
  - rewrite P in *. rewrite (P []). simpl in *.
    repeat split; auto; [discriminate | intro A; discriminate A].
  - rewrite P in *. rewrite (P []). simpl in *.
    repeat split; auto; [discriminate | intro A; discriminate A].
  - assert (K : key (row 0) = (JsString.trim c, JsString.trim p)).
    { destruct (R 0) as ((_ & _ & Tc & Tp & _) & _).
      rewrite Hc in Tc. rewrite Hp in Tp. simpl in Tc, Tp.
      injection Tc as Tc. injection Tp as Tp. unfold key. congruence. }
    assert (D : duplicate db (row 0) = true).
    { apply duplicate_in. now rewrite K. }
    rewrite (P db) in *. rewrite D in *. simpl in *.
    repeat split; auto. discriminate.
Qed.

Lemma C1_unique_pair_witness :
  let b := submission "other@x.com" " Acme " "Website  " 1 1 1 1 in
  post_feedback sample_db (mid_january + 9) b = (answer_409, sample_db)
  /\ List.length (filter (Sqlite.same_key "Acme" "Website") sample_db) = 1%nat.
Proof.
  intro b.
  destruct (C1_unique_pair sample_requests (mid_january + 9) b
              " Acme " "Website  ") as [_ H].
  destruct H as (_ & S & L & A).
  - reflexivity.
  - reflexivity.
  - vm_compute. right. left. reflexivity.
  - fold sample_db in S, L, A. rewrite S in L.
    specialize (A eq_refl).
    split; [|exact L].
    rewrite <- S at 2. rewrite <- A. apply surjective_pairing.
Defined.

(** ** Validation of the required fields *)

Lemma missing_field_iff (db : table) (now : Z) (b : body) :
  status_of (fst (post_feedback db now b)) = 400 <->
  exists k, In k required /\ missing (get b k) = true.
Proof.
  destruct (post_cases now b)
    as [(k & I & M & P) | [(F & e & _ & P) | (F & row & _ & P)]];
    rewrite P.
  - simpl. split; [intros _; now exists k | reflexivity].
  - simpl. split; [discriminate|].
    intros (k & I & M). rewrite (F k I) in M. discriminate.
  - split.
    + destruct (duplicate db (row 0)); discriminate.
    + intros (k & I & M). rewrite (F k I) in M. discriminate.
Qed.

Lemma missing_field_keeps_table (db : table) (now : Z) (b : body) :
  status_of (fst (post_feedback db now b)) = 400 ->
  snd (post_feedback db now b) = db.
Proof.
  destruct (post_cases now b)
    as [(k & _ & _ & P) | [(_ & e & _ & P) | (_ & row & _ & P)]];
    rewrite P; try reflexivity.
  destruct (duplicate db (row 0)); [reflexivity | discriminate].
Qed.

(** C3 at its failing input: a client_name of three spaces is no empty
    string for the required-field check, so the submission is answered 200
    and a row with the empty client_name is stored; likewise a rating of one
    space is stored as 0. *)
Theorem C3_whitespace_only_accepted :
  JsString.trim "   " = ""
  /\ post_feedback [] mid_january
       (submission "a@x.com" "   " "Website" 2 5 5 5)
     = (answer_200,
        [mkFeedback 1 "2026-01-15T12:00:00.000Z" "a@x.com" "" "Website"
           2 None 5 None 5 None 5 None None])
  /\ post_feedback [] mid_january
       [("email", JString "a@x.com"); ("client_name", JString "Acme");
        ("project", JString "   "); ("reactivity", JString " ");
        ("deadlines", JNumber 5); ("deliverables", JNumber 5);
        ("professionalism", JNumber 5)]
     = (answer_200,
        [mkFeedback 1 "2026-01-15T12:00:00.000Z" "a@x.com" "Acme" ""
           0 None 5 None 5 None 5 None None]).
Proof. vm_compute. repeat split; reflexivity. Qed.

(** ** Optional fields *)

Section Optional.






End Optional.



(** ** The calendar *)

Section Calendar.

Import JsDate.

Lemma DayFromYear_cycle (e y : Z) :
  DayFromYear (400 * e + y) = 146097 * e + DayFromYear y.
Proof.
  unfold DayFromYear.
  replace (400 * e + y - 1969) with (y - 1969 + (100 * e) * 4) by ring.
  replace (400 * e + y - 1901) with (y - 1901 + (4 * e) * 100) by ring.
  replace (400 * e + y - 1601) with (y - 1601 + e * 400) by ring.
  rewrite !Z.div_add by lia. ring.
Qed.

Lemma InLeapYear_cycle (e y : Z) : InLeapYear (400 * e + y) = InLeapYear y.
Proof.
  unfold InLeapYear.
  replace (400 * e + y) with (y + (100 * e) * 4) at 1 by ring.
  replace (400 * e + y) with (y + (4 * e) * 100) at 1 by ring.
  replace (400 * e + y) with (y + e * 400) by ring.
  now rewrite !Z.mod_add by lia.
Qed.

Lemma civil_of_day_cycle (e d : Z) :
  civil_of_day (146097 * e + d)
  = let '(y, m, dd) := civil_of_day d in (y + 400 * e, m, dd).
Proof.
  unfold civil_of_day.
  replace (146097 * e + d + 719468) with (d + 719468 + e * 146097) by ring.
  rewrite Z.div_add by lia.
  replace (d + 719468 + e * 146097 - ((d + 719468) / 146097 + e) * 146097)
    with (d + 719468 - (d + 719468) / 146097 * 146097) by ring.
  cbv zeta. f_equal. f_equal. ring.
Qed.

Lemma check_cycle :
  forallb (fun y => forallb (fun mn => first_day_ok y mn) month_indices)
    cycle_years = true.
Proof. vm_compute. reflexivity. Qed.

Lemma in_cycle_years (y : Z) : 0 <= y < 400 -> In y cycle_years.
Proof.
  intro Hy. apply in_map_iff. exists (Z.to_nat y). split; [lia|].
  apply in_seq. lia.
Qed.

Lemma in_month_indices (mn : Z) : 0 <= mn < 12 -> In mn month_indices.
Proof. intro Hm. unfold month_indices. simpl. lia. Qed.

Lemma first_day_ok_spec (y mn : Z) :
  first_day_ok y mn = true -> civil_of_day (MakeDay y mn) = (y, mn + 1, 1).
Proof.
  unfold first_day_ok.
  destruct (civil_of_day (MakeDay y mn)) as [[y' m] d].
  rewrite !andb_true_iff, !Z.eqb_eq. now intros [[-> ->] ->].
Qed.

Lemma civil_of_first_day (y mn : Z) :
  0 <= y < 400 -> 0 <= mn < 12 ->
  civil_of_day (MakeDay y mn) = (y, mn + 1, 1).
Proof.
  intros Hy Hm. apply first_day_ok_spec.
  exact (proj1 (forallb_forall _ _)
           (proj1 (forallb_forall _ _) check_cycle y (in_cycle_years y Hy))
           mn (in_month_indices mn Hm)).
Qed.

(** MakeDay and the calendar agree for every year and month index: the
    month index rolls over into the year. *)
Lemma civil_of_MakeDay (year month : Z) :
  civil_of_day (MakeDay year month)
  = (year + month / 12, month mod 12 + 1, 1).
Proof.
  unfold MakeDay.
  set (ym := year + month / 12). set (mn := month mod 12).
  assert (Hm : 0 <= mn < 12) by (apply Z.mod_pos_bound; lia).
  assert (Hy : 0 <= ym mod 400 < 400) by (apply Z.mod_pos_bound; lia).
  assert (E : ym = 400 * (ym / 400) + ym mod 400)
    by (apply Z.div_mod; lia).
  rewrite E at 1 2.
  rewrite DayFromYear_cycle, InLeapYear_cycle, <- Z.add_assoc.
  rewrite civil_of_day_cycle.
  pose proof (civil_of_first_day (ym mod 400) mn Hy Hm) as F.
  unfold MakeDay in F.
  rewrite (Z.div_small mn 12), (Z.mod_small mn 12), Z.add_0_r in F by lia.
  rewrite F. f_equal. f_equal. lia.
Qed.

Lemma iso_string_first_of_month (year month : Z) :
  iso_string (first_of_month year month)
  = midnight_string (MakeFullYear year + month / 12) (month mod 12 + 1).
Proof.
  unfold iso_string, first_of_month, midnight_string.
  rewrite Z.div_mul, Z.mod_mul by (unfold msPerDay; lia).
  rewrite civil_of_MakeDay. reflexivity.
Qed.

End Calendar.

(** ** Month strings made of decimal digits *)

Section Digits.

Import JsNumber.

Lemma digit_in_digit (c : ascii) :
  is_digit c = true ->
  digit_in 10 c = Some (Z.of_nat (nat_of_ascii c) - 48).
Proof.
  unfold is_digit, digit_in. rewrite andb_true_iff, !Nat.leb_le.
  intros [L U].
  replace ((48 <=? Z.of_nat (nat_of_ascii c))
           && (Z.of_nat (nat_of_ascii c) <=? 57)) with true
    by (symmetry; apply andb_true_iff; rewrite !Z.leb_le; lia).
  replace (Z.of_nat (nat_of_ascii c) - 48 <? 10) with true
    by (symmetry; apply Z.ltb_lt; lia).
  reflexivity.
Qed.

Lemma span_digits_all (s : string) (acc : Z) (len : nat) :
  all_digits s = true ->
  span_digits 10 acc len s
  = (decimal_value acc s, (len + String.length s)%nat, EmptyString).
Proof.
  revert acc len. induction s as [|c r IH]; simpl; intros acc len H.
  - now rewrite Nat.add_0_r.
  - apply andb_true_iff in H. destruct H as [Hc Hr].
    rewrite (digit_in_digit c Hc), (IH _ _ Hr).
    now rewrite Nat.add_succ_r.
Qed.

Lemma digit_not_space (c : ascii) (l : list ascii) :
  is_digit c = true ->
  JsString.drop_one JsString.white_space (c :: l) = None
  /\ JsString.drop_one (map (@rev ascii) JsString.white_space) (c :: l)
     = None.
Proof.
  destruct c as [[] [] [] [] [] [] [] []]; intro H;
    try discriminate H; split; reflexivity.
Qed.

Lemma all_digits_forall (s : string) :
  all_digits s = true <->
  Forall (fun c => is_digit c = true) (list_ascii_of_string s).
Proof.
  induction s as [|c r IH]; simpl.
  - split; [constructor | reflexivity].
  - rewrite andb_true_iff, IH. split.
    + intros [Hc Hr]. now constructor.
    + intro H. now inversion H.
Qed.

Lemma trim_digits (s : string) :
  s <> EmptyString -> all_digits s = true -> JsString.trim s = s.
Proof.
  intros N A. unfold JsString.trim.
  rewrite <- (string_of_list_ascii_of_string s) at 2. f_equal.
  apply all_digits_forall in A.
  destruct (list_ascii_of_string s) as [|c l] eqn:E.
  { destruct s; [congruence | discriminate E]. }
  assert (S : JsString.trim_start (c :: l) = c :: l).
  { unfold JsString.trim_start. simpl List.length.
    unfold JsString.drop_while.
    destruct (digit_not_space c l) as [-> _]; [now inversion A | reflexivity]. }
  rewrite S. unfold JsString.trim_end.
  apply Forall_rev in A.
  destruct (rev (c :: l)) as [|c' l'] eqn:R.
  { apply (f_equal (@List.length ascii)) in R.
    rewrite length_rev in R. discriminate R. }
  simpl List.length. unfold JsString.drop_while.
  destruct (digit_not_space c' l') as [_ ->]; [now inversion A|].
  rewrite <- R. apply rev_involutive.
Qed.

Lemma unsigned_decimal_digits (s : string) :
  s <> EmptyString -> all_digits s = true ->
  unsigned_decimal s = Some (inject_Z (decimal_value 0 s)).
Proof.
  intros N A. unfold unsigned_decimal.
  rewrite (span_digits_all s 0 0 A).
  destruct s as [|c r]; [congruence|]. simpl.
  unfold Qmult, inject_Z. simpl. now rewrite Z.mul_1_r.
Qed.

Lemma numeric_literal_digits (s : string) :
  all_digits s = true -> numeric_literal s = unsigned_decimal s.
Proof.
  destruct s as [|c r]; [reflexivity|].
  simpl. rewrite andb_true_iff. intros [Hc Hr].
  destruct c as [[] [] [] [] [] [] [] []]; try discriminate Hc;
    try reflexivity.
  destruct r as [|c2 r2]; [reflexivity|].
  simpl in Hr. apply andb_true_iff in Hr. destruct Hr as [Hc2 _].
  destruct c2 as [[] [] [] [] [] [] [] []]; try discriminate Hc2;
    reflexivity.
Qed.

Lemma StringToNumber_decimal (s : string) (n : Z) :
  decimal s n -> StringToNumber s = Fin (inject_Z n).
Proof.
  intros (N & A & <-). unfold StringToNumber.
  rewrite (trim_digits s N A).
  rewrite (numeric_literal_digits s A), (unsigned_decimal_digits s N A).
  destruct s; [congruence | reflexivity].
Qed.

Lemma digit_not_dash (c : ascii) :
  is_digit c = true -> Ascii.eqb c "-" = false.
Proof.
  destruct c as [[] [] [] [] [] [] [] []]; intro H;
    try discriminate H; reflexivity.
Qed.

Lemma split_digits (s : string) :
  all_digits s = true -> JsString.split_on "-" s = [s].
Proof.
  induction s as [|c r IH]; simpl; [reflexivity|].
  rewrite andb_true_iff. intros [Hc Hr].
  now rewrite (digit_not_dash c Hc), (IH Hr).
Qed.

Lemma split_year_month (ys ms : string) :
  all_digits ys = true -> all_digits ms = true ->
  JsString.split_on "-" (ys ++ "-" ++ ms) = [ys; ms].
Proof.
  intros Hy Hm. change ("-" ++ ms) with (String "-" ms).
  induction ys as [|c r IH]; simpl.
  - now rewrite (split_digits ms Hm).
  - simpl in Hy. apply andb_true_iff in Hy. destruct Hy as [Hc Hr].
    now rewrite (digit_not_dash c Hc), (IH Hr).
Qed.

Lemma truncate_comp (x y : Q) : (x == y)%Q -> truncate x = truncate y.
Proof.
  intro E. unfold truncate, Qceiling.
  rewrite (Qleb_comp 0%Q 0%Q (Qeq_refl 0%Q) x y E).
  rewrite (Qfloor_comp x y E).
  now rewrite (Qfloor_comp (- x)%Q (- y)%Q) by now rewrite E.
Qed.

Lemma truncate_Z (n : Z) : truncate (inject_Z n) = n.
Proof.
  unfold truncate.
  destruct (Qle_bool 0 (inject_Z n)); [apply Qfloor_Z | apply Qceiling_Z].
Qed.

Lemma truncate_pred (n : Z) : truncate (inject_Z n - 1) = n - 1.
Proof.
  rewrite <- (truncate_Z (n - 1)). apply truncate_comp.
  unfold Qeq. simpl. lia.
Qed.

(** [monthRange] on a string whose first two pieces are numbers, the
    second one an integer. *)
Lemma monthRange_numbers (s ys ms : string) (rest : list string)
    (qy qm : Q) (m : Z) :
  JsString.split_on "-" s = ys :: ms :: rest ->
  StringToNumber ys = Fin qy -> StringToNumber ms = Fin qm ->
  (qm == inject_Z m)%Q ->
  monthRange (QString s)
  = (start <- JsDate.toISOString
                (JsDate.TimeClip (first_of_month (truncate qy) (m - 1))) ;;
     end_ <- JsDate.toISOString
               (JsDate.TimeClip (first_of_month (truncate qy) m)) ;;
     Ok (start, end_)).
Proof.
  intros S Ey Em E. unfold monthRange. rewrite S. simpl map.
  rewrite Ey, Em.
  unfold element. simpl nth_error. unfold Number, pred, JsDate.UTC.
  rewrite (truncate_comp qm (inject_Z m) E), truncate_Z.
  rewrite (truncate_comp (qm - 1) (inject_Z m - 1)) by now rewrite E.
  now rewrite truncate_pred.
Qed.

Lemma decimal_number (s : string) (n : Z) :
  decimal s n ->
  StringToNumber s = Fin (inject_Z n) /\ truncate (inject_Z n) = n.
Proof.
  intro D. split; [now apply StringToNumber_decimal | apply truncate_Z].
Qed.

End Digits.

(** ** The month parameter *)

Section Month.

Lemma month_given (s : string) (p : string) (ps : list string) :
  JsString.split_on "-" s = p :: ps -> ps <> [] ->
  not_given (Some (QString s)) = false.
Proof.
  destruct s; [|reflexivity]. simpl. intros E N.
  injection E as _ <-. congruence.
Qed.

(** A month whose first two pieces are a number and an integer, with both
    boundaries valid dates, is answered 200 with the interval from the
    first day of the month index [m - 1], rolled over into the year, to
    that of the index [m]. *)
Lemma get_stats_numbers (db : table) (s ys ms : string)
    (rest : list string) (qy qm : Q) (m : Z) :
  JsString.split_on "-" s = ys :: ms :: rest ->
  JsNumber.StringToNumber ys = Fin qy ->
  JsNumber.StringToNumber ms = Fin qm ->
  (qm == inject_Z m)%Q ->
  let y := JsNumber.truncate qy in
  Z.abs (first_of_month y (m - 1)) <= JsDate.maxTime ->
  Z.abs (first_of_month y m) <= JsDate.maxTime ->
  let yr := JsDate.MakeFullYear y in
  let start := midnight_string (yr + (m - 1) / 12) ((m - 1) mod 12 + 1) in
  let end_ := midnight_string (yr + m / 12) (m mod 12 + 1) in
  get_stats db (Some (QString s))
  = Json 200
      (ReportBody
         (mkReport (QString s) start end_
            (select_stats db start end_)
            (plan (select_stats db start end_) []))).
Proof.
  intros S Ey Em E y Rs Re yr start end_. unfold get_stats.
  rewrite (month_given s ys (ms :: rest) S) by discriminate.
  rewrite (monthRange_numbers s ys ms rest qy qm m S Ey Em E).
  unfold JsDate.TimeClip. fold y.
  apply Z.leb_le in Rs, Re. rewrite Rs, Re. simpl.
  rewrite !iso_string_first_of_month. reflexivity.
Qed.

Lemma get_stats_decimal (db : table) (ys ms : string) (y m : Z) :
  decimal ys y -> decimal ms m ->
  Z.abs (first_of_month y (m - 1)) <= JsDate.maxTime ->
  Z.abs (first_of_month y m) <= JsDate.maxTime ->
  let yr := JsDate.MakeFullYear y in
  let start := midnight_string (yr + (m - 1) / 12) ((m - 1) mod 12 + 1) in
  let end_ := midnight_string (yr + m / 12) (m mod 12 + 1) in
  get_stats db (Some (QString (ys ++ "-" ++ ms)))
  = Json 200
      (ReportBody
         (mkReport (QString (ys ++ "-" ++ ms)) start end_
            (select_stats db start end_)
            (plan (select_stats db start end_) []))).
Proof.
  intros Hy Hm.
  destruct (decimal_number ys y Hy) as [Ey Ty].
  destruct (decimal_number ms m Hm) as [Em _].
  pose proof (get_stats_numbers db (ys ++ "-" ++ ms) ys ms []
                (inject_Z y) (inject_Z m) m) as G.
  rewrite Ty in G. apply G; try assumption; [|reflexivity].
  destruct Hy as (_ & Ay & _), Hm as (_ & Am & _).
  now apply split_year_month.
Qed.

Lemma get_stats_400 (db : table) (month : option query_value) :
  status_of (get_stats db month) = 400 <->
  month = None \/ month = Some (QString "").
Proof.
  unfold get_stats. split.
  - destruct month as [[s|]|]; [| |auto]; unfold not_given.
    + destruct (String.eqb_spec s "") as [-> | N]; auto.
      destruct (monthRange (QString s)) as [[? ?]|]; cbn [status_of];
        intro H; discriminate H.
    + destruct (monthRange QNested) as [[? ?]|]; cbn [status_of];
        intro H; discriminate H.
  - intros [-> | ->]; reflexivity.
Qed.

End Month.

(** A month that is no number leaves the handler by a RangeError, which
    no [catch] of the handler takes. *)
Lemma stats_unparseable_month_throws :
  get_stats [] (Some (QString "abc"))
  = Uncaught (mkError "RangeError" "Invalid time value")
  /\ get_stats [] (Some (QString "2026"))
     = Uncaught (mkError "RangeError" "Invalid time value")
  /\ get_stats [] (Some QNested)
     = Uncaught (mkError "TypeError" "yyyyMm.split is not a function").
Proof. vm_compute. repeat split; reflexivity. Qed.

(** C10 as stated fails: a month far outside 1..12 leaves no valid date,
    and the request ends in an uncaught RangeError; and month 13 of the year
    written 26 is January 1927, not January of year 27. *)
Lemma C10_counterexample :
  get_stats [] (Some (QString "2026-4000000"))
  = Uncaught (mkError "RangeError" "Invalid time value")
  /\ exists r,
       get_stats [] (Some (QString "26-13")) = Json 200 (ReportBody r)
       /\ report_start r = "1927-01-01T00:00:00.000Z"
       /\ report_end r = "1927-02-01T00:00:00.000Z".
Proof.
  split; [vm_compute; reflexivity|].
  eexists. split; [vm_compute; reflexivity|]. split; reflexivity.
Qed.

(** C10, as the code has it: a month string Y-M whose Y and M are written
    in decimal digits, M outside 1..12, is not rejected: as long as both
    boundaries are valid dates the answer is 200 with the interval that
    starts at the first day of month index M-1 rolled over into the year, so
    that month 13 is January of the year after the one Date.UTC reads from
    Y, and month 0 is December of the year before it. Date.UTC reads Y as
    the year Y itself from 100 on. *)
Theorem C10_month_rollover (db : table) (ys ms : string) (y m : Z) :
  decimal ys y -> decimal ms m ->
  m < 1 \/ 12 < m ->
  Z.abs (first_of_month y (m - 1)) <= JsDate.maxTime ->
  Z.abs (first_of_month y m) <= JsDate.maxTime ->
  let month := QString (ys ++ "-" ++ ms) in
  let yr := JsDate.MakeFullYear y in
  let start := midnight_string (yr + (m - 1) / 12) ((m - 1) mod 12 + 1) in
  let end_ := midnight_string (yr + m / 12) (m mod 12 + 1) in
  get_stats db (Some month)
  = Json 200
      (ReportBody
         (mkReport month start end_
            (select_stats db start end_)
            (plan (select_stats db start end_) [])))
  /\ (m = 13 ->
      start = midnight_string (yr + 1) 1 /\ end_ = midnight_string (yr + 1) 2)
  /\ (m = 0 ->
      start = midnight_string (yr - 1) 12 /\ end_ = midnight_string yr 1)
  /\ (100 <= y -> yr = y).
Proof.
  intros Dy Dm _ Rs Re month yr start end_.
  split; [exact (get_stats_decimal db ys ms y m Dy Dm Rs Re)|].
  split; [|split].
  - intros ->. unfold start, end_. simpl. split; reflexivity.
  - intros ->. unfold start, end_.
    replace (yr + (0 - 1) / 12) with (yr - 1)
      by (change ((0 - 1) / 12) with (-1); lia).
    replace (yr + 0 / 12) with yr by (change (0 / 12) with 0; lia).
    split; reflexivity.
  - intro L. unfold yr, JsDate.MakeFullYear.
    replace (y <=? 99) with false by (symmetry; apply Z.leb_gt; lia).
    now rewrite andb_false_r.
Qed.

Lemma C10_month_rollover_witness :
  get_stats sample_db (Some (QString "2026-13"))
  = Json 200
      (ReportBody
         (mkReport (QString "2026-13")
            "2027-01-01T00:00:00.000Z" "2027-02-01T00:00:00.000Z" [] []))
  /\ exists r,
       get_stats sample_db (Some (QString "2026-00")) = Json 200 (ReportBody r)
       /\ report_start r = "2025-12-01T00:00:00.000Z"
       /\ report_end r = "2026-01-01T00:00:00.000Z".
Proof.
  assert (D : forall s n, s <> "" -> all_digits s = true ->
                          decimal_value 0 s = n -> decimal s n)
    by (intros; repeat split; assumption).
  assert (Y : decimal "2026" 2026)
    by (apply D; [discriminate | reflexivity | reflexivity]).
  assert (M13 : decimal "13" 13)
    by (apply D; [discriminate | reflexivity | reflexivity]).
  assert (M0 : decimal "00" 0)
    by (apply D; [discriminate | reflexivity | reflexivity]).
  assert (R : forall m, In m [-1; 0; 12; 13] ->
                        Z.abs (first_of_month 2026 m) <= JsDate.maxTime).
  { intros m [<- | [<- | [<- | [<- | []]]]]; vm_compute; discriminate. }
  split.
  - refine (eq_trans
              (proj1 (C10_month_rollover sample_db "2026" "13" 2026 13
                        Y M13 (or_intror eq_refl) (R 12 _) (R 13 _))) _);
      [simpl; tauto | simpl; tauto |].
    vm_compute. reflexivity.
  - eexists. split.
    + exact (proj1 (C10_month_rollover sample_db "2026" "00" 2026 0
                      Y M0 (or_introl eq_refl)
                      (R (-1) (or_introl eq_refl))
                      (R 0 (or_intror (or_introl eq_refl))))).
    + split; vm_compute; reflexivity.
Defined.

(** C4 as stated fails: month 13 is no month of 1..12, and the request is
    answered 200. *)
Lemma C4_counterexample :
  status_of (get_stats sample_db (Some (QString "2026-13"))) = 200.
Proof. vm_compute. reflexivity. Qed.

(** C4, as the code has it: when the month parameter is absent or the
    empty string the request is answered 400, with the message that the month
    is required; a month Y-M written in digits is answered 200 whenever both
    boundaries of its interval are valid dates, whatever the integer M is. *)
Theorem C4_month_required (db : table) (month : option query_value) :
  (month = None \/ month = Some (QString "") ->
   get_stats db month = Json 400 (ErrorBody month_required))
  /\ (forall ys ms y m,
        month = Some (QString (ys ++ "-" ++ ms)) ->
        decimal ys y -> decimal ms m ->
        Z.abs (first_of_month y (m - 1)) <= JsDate.maxTime ->
        Z.abs (first_of_month y m) <= JsDate.maxTime ->
        status_of (get_stats db month) = 200).
Proof.
  split.
  - intros [-> | ->]; reflexivity.
  - intros ys ms y m -> Hy Hm Rs Re.
    now rewrite (get_stats_decimal db ys ms y m Hy Hm Rs Re).
Qed.

Lemma C4_month_required_witness :
  get_stats sample_db None = Json 400 (ErrorBody month_required)
  /\ get_stats sample_db (Some (QString ""))
     = Json 400 (ErrorBody month_required)
  /\ status_of (get_stats sample_db (Some (QString "2026-00"))) = 200.
Proof.
  assert (D : forall s n, s <> "" -> all_digits s = true ->
                          decimal_value 0 s = n -> decimal s n)
    by (intros; repeat split; assumption).
  assert (Y : decimal "2026" 2026)
    by (apply D; [discriminate | reflexivity | reflexivity]).
  assert (M0 : decimal "00" 0)
    by (apply D; [discriminate | reflexivity | reflexivity]).
  assert (R : forall m, In m [-1; 0] ->
                        Z.abs (first_of_month 2026 m) <= JsDate.maxTime).
  { intros m [<- | [<- | []]]; vm_compute; discriminate. }
  split; [|split].
  - exact (proj1 (C4_month_required sample_db None) (or_introl eq_refl)).
  - exact (proj1 (C4_month_required sample_db (Some (QString "")))
             (or_intror eq_refl)).
  - exact (proj2 (C4_month_required sample_db (Some (QString "2026-00")))
             "2026" "00" 2026 0 eq_refl Y M0
             (R (-1) (or_introl eq_refl))
             (R 0 (or_intror (or_introl eq_refl)))).
Defined.

(** ** Timestamps of January 2026 *)

Section January.

Import JsDate.

Lemma compare_zero_digit (n : Z) (s t : string) :
  String.compare s t <> Gt ->
  String.compare (String "0" s) (String (digit n) t) <> Gt.
Proof.
  intro H. unfold digit.
  assert (B : 0 <= n mod 10 < 10) by (apply Z.mod_pos_bound; lia).
  assert (C : (Z.to_nat (n mod 10) < 10)%nat) by lia.
  destruct (Z.to_nat (n mod 10)) as [|[|[|[|[|[|[|[|[|[|k]]]]]]]]]];
    try (exfalso; lia); simpl; try discriminate. exact H.
Qed.

Lemma compare_same (c : ascii) (s t : string) :
  String.compare s t <> Gt ->
  String.compare (String c s) (String c t) <> Gt.
Proof.
  intro H. simpl.
  replace (Ascii.compare c c) with Eq; [exact H|].
  symmetry. unfold Ascii.compare. apply N.compare_refl.
Qed.

(** No time of the day is written before midnight. *)
Lemma midnight_first (ms : Z) :
  String.compare "00:00:00.000Z" (time_string ms ++ "Z") <> Gt.
Proof.
  unfold time_string. cbn [pad append].
  repeat first [apply compare_zero_digit | apply compare_same].
  discriminate.
Qed.

Lemma check_january : forallb january_day_ok january_days = true.
Proof. vm_compute. reflexivity. Qed.

Lemma civil_of_january (day : Z) :
  20454 <= day <= 20484 -> civil_of_day day = (2026, 1, day - 20453).
Proof.
  intro H.
  assert (I : In day january_days).
  { apply in_map_iff. exists (Z.to_nat (day - 20454)). split; [lia|].
    apply in_seq. lia. }
  pose proof (proj1 (forallb_forall _ _) check_january day I) as C.
  unfold january_day_ok in C.
  destruct (civil_of_day day) as [[y m] d].
  rewrite !andb_true_iff, !Z.eqb_eq in C.
  destruct C as [[-> ->] ->]. reflexivity.
Qed.

Lemma iso_string_january (now : Z) :
  1767225600000 <= now < 1769904000000 ->
  exists d, 1 <= d <= 31
            /\ iso_string now
               = "2026-01-" ++ pad 2 d "" ++ "T"
                 ++ time_string (now mod msPerDay) ++ "Z".
Proof.
  intro H. exists (now / msPerDay - 20453).
  assert (D : 20454 <= now / msPerDay <= 20484).
  { unfold msPerDay. Z.div_mod_to_equations. lia. }
  split; [lia|].
  unfold iso_string. rewrite (civil_of_january _ D). reflexivity.
Qed.

Ltac each_day d lo n tac :=
  lazymatch n with
  | O => exfalso; lia
  | S ?n' =>
      destruct (Z.eq_dec d lo) as [-> | ?];
      [ tac
      | let lo' := eval compute in (lo + 1) in each_day d lo' n' tac ]
  end.

Lemma january_in_range (now : Z) (r : feedback) :
  1767225600000 <= now < 1769904000000 ->
  created_at r = iso_string now ->
  in_range january_start january_end r = true.
Proof.
  intros H E. unfold in_range. rewrite E.
  destruct (iso_string_january now H) as (d & B & ->).
  apply andb_true_iff. split.
  - unfold String.leb, january_start.
    assert (C : String.compare "2026-01-01T00:00:00.000Z"
                  ("2026-01-" ++ pad 2 d "" ++ "T"
                   ++ time_string (now mod msPerDay) ++ "Z") <> Gt).
    { each_day d 1 31%nat
        ltac:(first [ discriminate
                    | repeat apply compare_same; apply midnight_first ]). }
    destruct (String.compare _ _); congruence.
  - unfold String.ltb, january_end.
    each_day d 1 31%nat ltac:(reflexivity).
Qed.

End January.

(** C7: on an empty table, the submission {a@x.com, Acme, Website, 2, 5, 5,
    5} handled at any time of January 2026 is accepted, and the statistics
    of 2026-01 then hold exactly the project Website with one response,
    avg_reactivity 2 and avg_total 17/4 = 4.25, and an action plan with the
    single entry Website whose only recommendation is that of reactivity. *)
Theorem C7_example (now : Z) :
  first_of_month 2026 0 <= now < first_of_month 2026 1 ->
  post_feedback [] now acme_website = (answer_200, [acme_row now])
  /\ get_stats [acme_row now] january
     = Json 200
         (ReportBody
            (mkReport (QString "2026-01") january_start january_end
               [mkStat "Website" 1 2 5 5 5 (17 # 4)]
               [mkAction "Website" [rec_reactivity]]))
  /\ (17 # 4 == 4.25)%Q.
Proof.
  intro H.
  change (first_of_month 2026 0) with 1767225600000 in H.
  change (first_of_month 2026 1) with 1769904000000 in H.
  split; [reflexivity|]. split; [|reflexivity].
  unfold get_stats, january. cbn [not_given String.eqb].
  replace (monthRange (QString "2026-01"))
    with (Ok (january_start, january_end)) by (vm_compute; reflexivity).
  unfold select_stats. cbn [filter].
  rewrite (january_in_range now (acme_row now) H eq_refl).
  reflexivity.
Qed.

Lemma C7_example_witness :
  post_feedback [] mid_january acme_website
  = (answer_200, [acme_row mid_january])
  /\ get_stats [acme_row mid_january] january
     = Json 200
         (ReportBody
            (mkReport (QString "2026-01") january_start january_end
               [mkStat "Website" 1 2 5 5 5 (17 # 4)]
               [mkAction "Website" [rec_reactivity]])).
Proof.
  assert (H : first_of_month 2026 0 <= mid_january < first_of_month 2026 1)
    by (vm_compute; split; [discriminate | reflexivity]).
  destruct (C7_example mid_january H) as (P & G & _).
  split; [exact P | exact G].
Defined.

(** ** Further evaluations of the month parameter *)

(** A month so large that the boundary is no valid date leaves the handler
    by a RangeError, and a year of two digits is read as a year of the
    twentieth century. *)
Example stats_month_edges :
  get_stats [] (Some (QString "2026-99999999999999999"))
  = Uncaught (mkError "RangeError" "Invalid time value")
  /\ get_stats [] (Some (QString "26-13"))
     = Json 200
         (ReportBody
            (mkReport (QString "26-13") "1927-01-01T00:00:00.000Z"
               "1927-02-01T00:00:00.000Z" [] [])).
Proof. vm_compute. split; reflexivity. Qed.


(** * Further properties of the handlers *)

(** ** Submissions *)

Section SubmissionMore.

Lemma first_missing_split (b : body) (ks : list string) (k : string) :
  first_missing b ks = Some k ->
  exists before after,
    ks = List.app before (k :: after)
    /\ (forall k', In k' before -> missing (get b k') = false)
    /\ missing (get b k) = true.
Proof.
  induction ks as [|k0 ks IH]; simpl; [discriminate|].
  destruct (missing (get b k0)) eqn:M.
  - intro H. injection H as <-. exists [], ks. simpl. tauto.
  - intro H. destruct (IH H) as (before & after & -> & B & K).
    exists (k0 :: before), after. simpl. repeat split; [|exact K].
    intros k' [<- | I]; auto.
Qed.

Lemma call_trim_ok (path : string) (v : value) (t : string) :
  call_trim path v = Ok t -> exists x, v = VString x /\ t = JsString.trim x.
Proof.
  destruct v; simpl; intro H; try discriminate.
  injection H as <-. eauto.
Qed.

Lemma call_trim_not_text (path : string) (v : value) :
  not_text v ->
  call_trim path v = Throw (mkError "TypeError" (path ++ ".trim is not a function")).
Proof. intros [[n ->] | [x ->]]; reflexivity. Qed.

Lemma next_id_app (db : table) (r : feedback) :
  Sqlite.next_id (List.app db [r])
  = 1 + Z.max (Z.max (id r) 0) (Sqlite.next_id db - 1).
Proof.
  unfold Sqlite.next_id.
  induction db as [|x db IH]; cbn [fold_right List.app] in *; lia.
Qed.

Lemma next_id_above (db : table) (x : feedback) :
  In x db -> id x < Sqlite.next_id db.
Proof.
  unfold Sqlite.next_id. induction db as [|y db IH]; [contradiction|].
  cbn [fold_right]. intros [-> | Hx]; [lia|]. specialize (IH Hx). lia.
Qed.

End SubmissionMore.

(** X1: a submission is answered 400 exactly when one of the seven required
    fields is absent, null or the empty string as submitted; the answer then
    names the first such field in the order email, client_name, project,
    reactivity, deadlines, deliverables, professionalism, whatever the table
    holds, and the table is left as it is. *)
Theorem X1_missing_field (db : table) (now : Z) (b : body) :
  (status_of (fst (post_feedback db now b)) = 400 <->
   exists k, In k required /\ missing (get b k) = true)
  /\ (status_of (fst (post_feedback db now b)) = 400 ->
      exists before k after,
        required = List.app before (k :: after)
        /\ (forall k', In k' before -> missing (get b k') = false)
        /\ missing (get b k) = true
        /\ post_feedback db now b
           = (Json 400 (ErrorBody ("Missing field: " ++ k)), db)).
Proof.
  split; [apply missing_field_iff|].
  unfold post_feedback.
  destruct (first_missing b required) as [k|] eqn:F.
  - intros _. destruct (first_missing_split b required k F)
      as (before & after & E & B & K).
    exists before, k, after. repeat split; assumption.
  - destruct (try_insert [] now b) as [db0|e0]; destruct (try_insert db now b) as [db'|e];
      try (simpl; discriminate);
      destruct (JsString.includes "UNIQUE" (err_message e)); simpl; discriminate.
Qed.

Lemma X1_missing_field_witness :
  post_feedback sample_db mid_january
    [("email", JString "a@x.com"); ("client_name", JString "");
     ("reactivity", JNull)]
  = (Json 400 (ErrorBody "Missing field: client_name"), sample_db).
Proof.
  destruct (X1_missing_field sample_db mid_january
              [("email", JString "a@x.com"); ("client_name", JString "");
               ("reactivity", JNull)]) as [_ H].
  destruct (H eq_refl) as (before & k & after & E & B & K & P).
  rewrite P. do 2 f_equal. f_equal.
  destruct before as [|k0 [|k1 before]].
  - injection E as <- _. discriminate K.
  - injection E as <- <- _. reflexivity.
  - injection E as <- <- _.
    discriminate (B "client_name" (or_intror (or_introl eq_refl))).
Defined.

(** X2: whether a submission is refused for another reason than a duplicate
    does not depend on the table: a request that is not accepted on the empty
    table gets the same answer on every table, which it leaves as it is; a
    request accepted on the empty table is answered 409, with the table left
    as it is, when its trimmed client_name and project are those of a stored
    row, and 200 otherwise. *)
Theorem X2_duplicate_or_accepted (db : table) (now : Z) (b : body) :
  (status_of (fst (post_feedback [] now b)) <> 200 ->
   post_feedback db now b = (fst (post_feedback [] now b), db))
  /\ (status_of (fst (post_feedback [] now b)) = 200 ->
      exists c p,
        get b "client_name" = VString c /\ get b "project" = VString p
        /\ (In (JsString.trim c, JsString.trim p) (map key db) ->
            post_feedback db now b = (answer_409, db))
        /\ (~ In (JsString.trim c, JsString.trim p) (map key db) ->
            fst (post_feedback db now b) = answer_200)).
Proof.
  destruct (post_cases now b)
    as [(k & _ & _ & P) | [(_ & e & _ & P) | (_ & row & R & P)]].
  - rewrite (P []), (P db). simpl. split; [reflexivity | discriminate].
  - rewrite (P []), (P db). simpl. split; [reflexivity | discriminate].
  - rewrite (P []). simpl. split; [intro N; now contradiction N|]. intros _.
    destruct (R 0) as ((_ & _ & Tc & Tp & _) & _).
    destruct (call_trim_ok _ _ _ Tc) as (c & Hc & Ec).
    destruct (call_trim_ok _ _ _ Tp) as (p & Hp & Ep).
    exists c, p. split; [exact Hc|]. split; [exact Hp|].
    assert (K : key (row 0) = (JsString.trim c, JsString.trim p))
      by (unfold key; congruence).
    rewrite <- K, (P db). split; intro I.
    + apply duplicate_in in I. now rewrite I.
    + destruct (duplicate db (row 0)) eqn:D; [|reflexivity].
      apply duplicate_in in D. contradiction.
Qed.

Lemma X2_duplicate_or_accepted_witness :
  post_feedback sample_db mid_january
    (submission "n@x.com" "Acme " " Portal" 1 1 1 1)
  = (answer_409, sample_db)
  /\ post_feedback sample_db mid_january
       (submission "n@x.com" "Acme" "Portal" 1 1 1 1 ++ [])%list
     = (answer_409, sample_db)
  /\ post_feedback sample_db mid_january [("email", JString "n@x.com")]
     = (answer_400 "client_name", sample_db).
Proof.
  split; [|split].
  - destruct (X2_duplicate_or_accepted sample_db mid_january
                (submission "n@x.com" "Acme " " Portal" 1 1 1 1)) as [_ H].
    destruct (H eq_refl) as (c & p & Hc & Hp & D & _).
    injection Hc as <-. injection Hp as <-.
    apply D. vm_compute. left. reflexivity.
  - destruct (X2_duplicate_or_accepted sample_db mid_january
                (submission "n@x.com" "Acme" "Portal" 1 1 1 1 ++ [])%list)
      as [_ H].
    destruct (H eq_refl) as (c & p & Hc & Hp & D & _).
    injection Hc as <-. injection Hp as <-.
    apply D. vm_compute. left. reflexivity.
  - destruct (X2_duplicate_or_accepted sample_db mid_january
                [("email", JString "n@x.com")]) as [H _].
    rewrite H; [reflexivity | discriminate].
Defined.

(** The row appended by a submission answered 200. *)
Lemma accepted_row (db : table) (now : Z) (b : body) :
  status_of (fst (post_feedback db now b)) = 200 ->
  exists r e c p,
    snd (post_feedback db now b) = List.app db [r]
    /\ get b "email" = VString e
    /\ get b "client_name" = VString c
    /\ get b "project" = VString p
    /\ id r = Sqlite.next_id db
    /\ (forall x, In x db -> id x < id r)
    /\ created_at r = JsDate.iso_string now
    /\ email r = JsString.trim e
    /\ client_name r = JsString.trim c
    /\ project r = JsString.trim p
    /\ map Fin (ratings r)
       = map (fun k => Number (get b k))
           ["reactivity"; "deadlines"; "deliverables"; "professionalism"].
Proof.
  destruct (post_cases now b)
    as [(k & _ & _ & P) | [(_ & e & _ & P) | (_ & row & R & P)]];
    rewrite (P db); try discriminate.
  destruct (duplicate db (row 0)); [discriminate|]. intros _.
  destruct (R (Sqlite.next_id db))
    as ((Cr & Te & Tc & Tp & N1 & N2 & N3 & N4 & _) & I & _).
  destruct (call_trim_ok _ _ _ Te) as (e & He & Ee).
  destruct (call_trim_ok _ _ _ Tc) as (c & Hc & Ec).
  destruct (call_trim_ok _ _ _ Tp) as (p & Hp & Ep).
  exists (row (Sqlite.next_id db)), e, c, p.
  repeat split; try assumption.
  - intros x Hx. rewrite I. now apply next_id_above.
  - unfold ratings. cbn [map]. now rewrite N1, N2, N3, N4.
Qed.



Section History.

Lemma post_appends (db : table) (now : Z) (b : body) :
  (accepted (fst (post_feedback db now b)) = false
   /\ snd (post_feedback db now b) = db)
  \/ (accepted (fst (post_feedback db now b)) = true
      /\ exists r, snd (post_feedback db now b) = List.app db [r]
                   /\ id r = Sqlite.next_id db).
Proof.
  destruct (post_cases now b)
    as [(k & _ & _ & P) | [(_ & e & _ & P) | (_ & row & R & P)]];
    rewrite (P db); try (left; split; reflexivity).
  destruct (duplicate db (row 0)); [left; split; reflexivity|].
  right. split; [reflexivity|]. exists (row (Sqlite.next_id db)).
  split; [reflexivity|]. now destruct (R (Sqlite.next_id db)) as (_ & I & _).
Qed.

Lemma numbered_next_id (db : table) :
  numbered db -> Sqlite.next_id db = 1 + Z.of_nat (List.length db).
Proof.
  unfold numbered. induction db as [|x db IH] using rev_ind.
  - reflexivity.
  - rewrite map_app, length_app, Nat.add_comm. cbn [List.length map Nat.add].
    rewrite seq_S, map_app. cbn [map]. intro E.
    apply app_inj_tail in E. destruct E as [E Ex].
    rewrite next_id_app, (IH E), Ex. lia.
Qed.

Lemma numbered_snoc (db : table) (r : feedback) :
  numbered db -> id r = Sqlite.next_id db -> numbered (List.app db [r]).
Proof.
  intros N I. rewrite (numbered_next_id db N) in I. unfold numbered in *.
  rewrite map_app, length_app, Nat.add_comm. cbn [List.length map Nat.add].
  rewrite seq_S, map_app, <- N. cbn [map]. f_equal. f_equal. lia.
Qed.

End History.

(** X4: the table only grows: after any sequence of submissions the table
    is the former table followed by one new row per submission answered 200,
    so no stored row is ever changed or removed. *)
Theorem X4_append_only (db : table) (reqs : list (Z * body)) :
  exists rows,
    submit_all db reqs = List.app db rows
    /\ List.length rows = List.length (filter accepted (answers db reqs)).
Proof.
  revert db. induction reqs as [|[now b] reqs IH]; intro db;
    cbn [submit_all answers filter].
  - exists []. split; [now rewrite app_nil_r | reflexivity].
  - destruct (IH (snd (post_feedback db now b))) as (rows & E & L).
    rewrite E.
    destruct (post_appends db now b) as [[A S] | [A (r & S & _)]];
      rewrite A, S in *.
    + exists rows. split; [reflexivity | exact L].
    + exists (r :: rows). split; [now rewrite <- app_assoc|].
      cbn [List.length]. now rewrite L.
Qed.

(** X5: starting from the empty table, the ids of the rows are 1, 2, 3, ...
    in the order of insertion, whatever was submitted: a refused submission
    uses up no id. *)
Theorem X5_ids_count_up (reqs : list (Z * body)) :
  map id (submit_all [] reqs)
  = map Z.of_nat (seq 1 (List.length (submit_all [] reqs))).
Proof.
  change (numbered (submit_all [] reqs)).
  assert (N : numbered (@nil feedback)) by reflexivity.
  revert N. generalize (@nil feedback) as db.
  induction reqs as [|[now b] reqs IH]; intros db N; cbn [submit_all].
  - exact N.
  - apply IH.
    destruct (post_appends db now b) as [[_ S] | [_ (r & S & I)]]; rewrite S.
    + exact N.
    + now apply numbered_snoc.
Qed.

(** X6: when every required field is present but email, client_name or
    project is a number or a boolean, the submission is answered 500 and
    nothing is stored; the details are the TypeError of the missing trim
    method of the first such field in the order email, client_name, project,
    the fields before it being strings. *)
Theorem X6_text_field_not_a_string (db : table) (now : Z) (b : body)
    (k : string) :
  (forall k', In k' required -> missing (get b k') = false) ->
  In k text_fields -> not_text (get b k) ->
  exists before k0 after,
    text_fields = List.app before (k0 :: after)
    /\ (forall k', In k' before -> exists s, get b k' = VString s)
    /\ not_text (get b k0)
    /\ post_feedback db now b
       = (Json 500
            (ErrorDetails "Erreur serveur."
               ("body." ++ k0 ++ ".trim is not a function")), db).
Proof.
  intros M Hk Nk. unfold post_feedback.
  rewrite (proj2 (first_missing_none b required) M).
  unfold try_insert. cbn [JsDate.toISOString bind].
  assert (T : forall f, In f text_fields ->
                (exists s, get b f = VString s) \/ not_text (get b f)).
  { intros f Hf.
    assert (Hr : In f required)
      by (unfold text_fields, required in *; simpl in *; tauto).
    specialize (M f Hr). unfold not_text.
    destruct (get b f); try discriminate M; eauto. }
  destruct (T "email") as [[e He] | Ne]; [simpl; tauto | |].
  2:{ exists [], "email", ["client_name"; "project"].
      split; [reflexivity|]. split; [intros k' []|]. split; [exact Ne|].
      now rewrite (call_trim_not_text _ _ Ne). }
  destruct (T "client_name") as [[c Hc] | Nc]; [simpl; tauto | |].
  2:{ exists ["email"], "client_name", ["project"].
      split; [reflexivity|].
      split; [intros k' [<- | []]; eauto|]. split; [exact Nc|].
      rewrite He. cbn [call_trim bind].
      now rewrite (call_trim_not_text _ _ Nc). }
  destruct (T "project") as [[p Hp] | Np]; [simpl; tauto | |].
  2:{ exists ["email"; "client_name"], "project", [].
      split; [reflexivity|].
      split; [intros k' [<- | [<- | []]]; eauto|]. split; [exact Np|].
      rewrite He, Hc. cbn [call_trim bind].
      now rewrite (call_trim_not_text _ _ Np). }
  exfalso. destruct Nk as [[n E] | [x E]];
    simpl in Hk; decompose [or] Hk; subst; try contradiction; congruence.
Qed.

Lemma X6_text_field_not_a_string_witness :
  let b := [("email", JString "a@x.com"); ("client_name", JNumber 7);
            ("project", JBool true); ("reactivity", JNumber 1);
            ("deadlines", JNumber 1); ("deliverables", JNumber 1);
            ("professionalism", JNumber 1)] in
  post_feedback sample_db mid_january b
  = (Json 500
       (ErrorDetails "Erreur serveur."
          "body.client_name.trim is not a function"), sample_db).
Proof.
  intro b.
  destruct (X6_text_field_not_a_string sample_db mid_january b "project")
    as (before & k0 & after & E & B & Nk & P).
  - intros k' Hk. simpl in Hk. decompose [or] Hk; subst;
      try contradiction; reflexivity.
  - simpl. tauto.
  - right. exists true. reflexivity.
  - rewrite P. do 3 f_equal.
    destruct before as [|k1 [|k2 [|k3 before]]]; unfold text_fields in E.
    + injection E as <- _. exfalso.
      destruct Nk as [[n N] | [x N]]; discriminate N.
    + injection E as _ <- _. reflexivity.
    + injection E as _ <- _ _. exfalso.
      destruct (B "client_name" (or_intror (or_introl eq_refl))) as [s N].
      discriminate N.
    + exfalso. apply (f_equal (@List.length string)) in E.
      rewrite length_app in E. simpl in E. lia.
Defined.

(** ** Statistics *)

Section StatisticsMore.

Lemma order_nil (l : list stat) : order_by_avg_total l = [] <-> l = [].
Proof.
  split; [|intros ->; reflexivity].
  intro E. pose proof (order_perm l) as P. rewrite E in P.
  now apply Permutation_nil.
Qed.

Lemma group_nil (rows : list feedback) : group_by_project rows = [] <-> rows = [].
Proof.
  split; [|intros ->; reflexivity].
  destruct rows as [|r rows]; [reflexivity|]. intro E.
  apply (f_equal (map stat_project)) in E. rewrite group_projects in E.
  assert (I : In (project r) (nodup string_dec (map project (r :: rows))))
    by (apply nodup_In; now left).
  rewrite E in I. contradiction.
Qed.

Lemma list_sum_perm (l l' : list nat) :
  Permutation l l' -> list_sum l = list_sum l'.
Proof.
  induction 1; simpl; lia.
Qed.

Lemma list_sum_plus {A : Type} (f g : A -> nat) (l : list A) :
  list_sum (map (fun k => f k + g k)%nat l)
  = (list_sum (map f l) + list_sum (map g l))%nat.
Proof. induction l as [|a l IH]; simpl; lia. Qed.

Lemma no_key (ks : list string) (a : string) :
  ~ In a ks ->
  list_sum (map (fun k => if String.eqb a k then 1 else 0)%nat ks) = 0%nat.
Proof.
  induction ks as [|k ks IH]; simpl; intro N; [reflexivity|].
  destruct (String.eqb_spec a k) as [-> | _].
  - exfalso. apply N. now left.
  - apply IH. intro I. apply N. now right.
Qed.

Lemma one_key (ks : list string) (a : string) :
  NoDup ks -> In a ks ->
  list_sum (map (fun k => if String.eqb a k then 1 else 0)%nat ks) = 1%nat.
Proof.
  induction ks as [|k ks IH]; simpl; intros N I; [contradiction|].
  inversion N as [|? ? Hk N']; subst.
  destruct (String.eqb_spec a k) as [-> | D].
  - rewrite (no_key ks k Hk). reflexivity.
  - destruct I as [-> | I]; [congruence|]. now apply IH.
Qed.

Lemma group_sizes (rows : list feedback) (ks : list string) :
  NoDup ks -> (forall r, In r rows -> In (project r) ks) ->
  list_sum
    (map (fun k => List.length (filter (fun r => String.eqb (project r) k) rows))
       ks)
  = List.length rows.
Proof.
  intros N. induction rows as [|r rows IH]; intro C.
  - clear. induction ks as [|k ks IHk]; simpl; [reflexivity | exact IHk].
  - assert (IH' := IH (fun x Hx => C x (or_intror Hx))). clear IH.
    transitivity
      (list_sum (map (fun k => if String.eqb (project r) k then 1 else 0) ks)
       + list_sum
           (map (fun k =>
                   List.length (filter (fun x => String.eqb (project x) k) rows))
              ks))%nat.
    + rewrite <- list_sum_plus. f_equal. apply map_ext. intro k.
      cbn [filter]. now destruct (String.eqb (project r) k).
    + now rewrite (one_key ks (project r) N (C r (or_introl eq_refl))), IH'.
Qed.

Lemma responses_sum (rows : list feedback) :
  list_sum (map responses (group_by_project rows)) = List.length rows.
Proof.
  unfold group_by_project. rewrite map_map. cbn [responses aggregate].
  apply group_sizes; [apply NoDup_nodup|].
  intros r Hr. apply nodup_In. now apply in_map.
Qed.

Lemma sum_bounds (lo hi : Q) (l : list Q) :
  (forall x, In x l -> lo <= x <= hi)%Q ->
  (inject_Z (Z.of_nat (List.length l)) * lo <= fold_right Qplus 0 l
   <= inject_Z (Z.of_nat (List.length l)) * hi)%Q.
Proof.
  induction l as [|x l IH]; intro B.
  - cbn [List.length fold_right Z.of_nat]. change (inject_Z 0) with 0%Q. lra.
  - cbn [List.length fold_right]. rewrite Nat2Z.inj_succ.
    unfold Z.succ. rewrite inject_Z_plus.
    destruct (B x (or_introl eq_refl)) as [L U].
    destruct (IH (fun y Hy => B y (or_intror Hy))) as [L' U'].
    change (inject_Z 1) with 1%Q. split; lra.
Qed.

Lemma mean_bounds (lo hi : Q) (l : list Q) :
  l <> [] -> (forall x, In x l -> lo <= x <= hi)%Q ->
  (lo <= mean l <= hi)%Q.
Proof.
  intros N B. destruct (sum_bounds lo hi l B) as [L U].
  unfold mean.
  assert (P : (0 < inject_Z (Z.of_nat (List.length l)))%Q).
  { destruct l; [congruence|]. cbn [List.length].
    change 0%Q with (inject_Z 0). rewrite <- Zlt_Qlt. lia. }
  split.
  - apply Qle_shift_div_l; [exact P|]. lra.
  - apply Qle_shift_div_r; [exact P|]. lra.
Qed.

End StatisticsMore.

(** X7: the projects list of a stats answer is empty exactly when no stored
    row has its created_at in the interval of the answer, and then the action
    plan is empty as well. *)
Theorem X7_empty_month (db : table) (month : option query_value) (r : report) :
  get_stats db month = Json 200 (ReportBody r) ->
  (projects r = [] <->
   forall x, In x db -> in_range (report_start r) (report_end r) x = false)
  /\ (projects r = [] -> action_plan r = []).
Proof.
  intro H. apply get_stats_200 in H.
  destruct H as (q & start & end_ & _ & _ & ->). cbn [projects report_start report_end action_plan].
  split.
  - unfold select_stats. rewrite order_nil, group_nil. split.
    + intros E x Hx. destruct (in_range start end_ x) eqn:I; [|reflexivity].
      assert (J : In x (filter (in_range start end_) db))
        by (apply filter_In; auto).
      rewrite E in J. contradiction.
    + intro A. induction db as [|x db IH]; [reflexivity|]. simpl.
      rewrite (A x (or_introl eq_refl)). apply IH.
      intros y Hy. apply A. now right.
  - intros ->. reflexivity.
Qed.

Lemma X7_empty_month_witness :
  exists r,
    get_stats sample_db (Some (QString "2026-02")) = Json 200 (ReportBody r)
    /\ projects r = [] /\ action_plan r = [].
Proof.
  eexists. split; [vm_compute; reflexivity|].
  match goal with
  | |- projects ?r = [] /\ _ =>
      destruct (X7_empty_month sample_db (Some (QString "2026-02")) r)
        as [[_ E] A]; [vm_compute; reflexivity|]
  end.
  assert (P : projects
                (mkReport (QString "2026-02") "2026-02-01T00:00:00.000Z"
                   "2026-03-01T00:00:00.000Z" [] []) = []) by reflexivity.
  split; [exact P | exact (A P)].
Defined.

(** X8: the projects list partitions the rows of the interval: every
    project with a row in the interval has exactly one entry, no other
    project has one, every entry counts at least one response, and the
    counts add up to the number of rows in the interval. *)
Theorem X8_projects_partition (db : table) (month : option query_value)
    (r : report) :
  get_stats db month = Json 200 (ReportBody r) ->
  let rows := filter (in_range (report_start r) (report_end r)) db in
  NoDup (map stat_project (projects r))
  /\ (forall k, In k (map stat_project (projects r)) <->
                exists x, In x rows /\ project x = k)
  /\ (forall s, In s (projects r) -> (1 <= responses s)%nat)
  /\ list_sum (map responses (projects r)) = List.length rows.
Proof.
  intro H. apply get_stats_200 in H.
  destruct H as (q & start & end_ & _ & _ & ->).
  cbn [projects report_start report_end].
  set (rows := filter (in_range start end_) db). cbv zeta.
  split; [apply select_projects_nodup|]. split; [|split].
  - intro k. unfold select_stats. fold rows.
    rewrite (Permutation_in' (eq_refl k)
               (Permutation_map stat_project (order_perm _))).
    rewrite group_projects, nodup_In, in_map_iff.
    split; intros (x & A & B); exists x; auto.
  - intros s Hs. destruct (select_stats_in db start end_ s Hs) as [N E].
    rewrite E. cbn [responses aggregate].
    destruct (responses_of db start end_ (stat_project s)); [congruence|].
    simpl. lia.
  - unfold select_stats. fold rows.
    rewrite (list_sum_perm _ _ (Permutation_map responses (order_perm _))).
    apply responses_sum.
Qed.

Lemma X8_projects_partition_witness :
  map (fun s => (stat_project s, responses s)) (projects sample_report)
  = [("Intranet", 1%nat); ("Website", 2%nat); ("Portal", 1%nat)]
  /\ list_sum (map responses (projects sample_report))
     = List.length
         (filter (in_range (report_start sample_report)
                    (report_end sample_report)) sample_db).
Proof.
  split; [vm_compute; reflexivity|].
  apply (X8_projects_partition sample_db january sample_report).
  vm_compute. reflexivity.
Defined.

(** X9: the averages stay within the range of the ratings: when every
    rating of the rows of the interval lies between two bounds, so do the
    four dimension averages and avg_total of every project. *)
Theorem X9_averages_within_ratings (db : table)
    (month : option query_value) (r : report) (lo hi : Q) :
  get_stats db month = Json 200 (ReportBody r) ->
  (forall x, In x db ->
     in_range (report_start r) (report_end r) x = true ->
     forall v, In v (ratings x) -> lo <= v <= hi)%Q ->
  forall s, In s (projects r) ->
  forall a, In a (averages s) -> (lo <= a <= hi)%Q.
Proof.
  intros H B s Hs. apply get_stats_200 in H.
  destruct H as (q & start & end_ & _ & _ & ->).
  cbn [projects report_start report_end] in *.
  destruct (select_stats_in db start end_ s Hs) as [N E].
  set (g := responses_of db start end_ (stat_project s)) in *.
  assert (G : forall x, In x g -> forall v, In v (ratings x) -> (lo <= v <= hi)%Q).
  { intros x Hx. unfold g, responses_of in Hx.
    apply filter_In in Hx. destruct Hx as [Hx _].
    apply filter_In in Hx. destruct Hx as [Hx I]. now apply B. }
  assert (M : forall f : feedback -> Q,
            (forall x, In (f x) (ratings x)) ->
            (lo <= mean (map f g) <= hi)%Q).
  { intros f Hf. apply mean_bounds.
    - destruct g; [congruence | discriminate].
    - intros v Hv. apply in_map_iff in Hv. destruct Hv as (x & <- & Hx).
      exact (G x Hx _ (Hf x)). }
  destruct (aggregate_spec (stat_project s) g)
    as (_ & A1 & A2 & A3 & A4 & _ & A5).
  rewrite <- E in A1, A2, A3, A4, A5.
  pose proof (M reactivity (fun x => or_introl eq_refl)) as M1.
  pose proof (M deadlines (fun x => or_intror (or_introl eq_refl))) as M2.
  pose proof (M deliverables
                (fun x => or_intror (or_intror (or_introl eq_refl)))) as M3.
  pose proof (M professionalism
                (fun x => or_intror (or_intror (or_intror (or_introl eq_refl)))))
    as M4.
  rewrite <- A1 in M1. rewrite <- A2 in M2.
  rewrite <- A3 in M3. rewrite <- A4 in M4.
  intros a Ha. unfold averages in Ha. simpl in Ha.
  destruct Ha as [<- | [<- | [<- | [<- | [<- | []]]]]]; try assumption.
  rewrite A5. split.
  - apply Qle_shift_div_l; lra.
  - apply Qle_shift_div_r; lra.
Qed.

Lemma X9_averages_within_ratings_witness :
  Forall (fun s => Forall (fun a => 2 <= a <= 5)%Q (averages s))
    (projects sample_report).
Proof.
  apply Forall_forall. intros s Hs. apply Forall_forall. revert s Hs.
  apply (X9_averages_within_ratings sample_db january sample_report 2 5).
  - vm_compute. reflexivity.
  - intros x Hx _ v Hv.
    vm_compute in Hx.
    repeat (destruct Hx as [<- | Hx];
            [vm_compute in Hv;
             repeat (destruct Hv as [<- | Hv]; [split; discriminate|]);
             contradiction|]).
    contradiction.
Defined.

(** X10: over exact arithmetic, every project whose avg_total is strictly
    below 4 has an entry in the action plan, because one of its four
    dimension averages is then below 4 as well. *)
Theorem X10_low_total_has_action (db : table) (month : option query_value)
    (r : report) (s : stat) :
  get_stats db month = Json 200 (ReportBody r) ->
  In s (projects r) -> (avg_total s < 4)%Q ->
  In (entry s) (action_plan r) /\ recommendations (entry s) <> [].
Proof.
  intros H Hs L. apply get_stats_200 in H.
  destruct H as (q & start & end_ & _ & _ & ->).
  cbn [projects action_plan] in *.
  destruct (select_stats_in db start end_ s Hs) as [_ E].
  destruct (aggregate_spec (stat_project s)
              (responses_of db start end_ (stat_project s)))
    as (_ & _ & _ & _ & _ & _ & A).
  rewrite <- E in A.
  assert (F : failing s = true).
  { destruct (failing s) eqn:F; [reflexivity|]. exfalso.
    apply failing_false in F. destruct F as (F1 & F2 & F3 & F4).
    rewrite A in L. apply (Qlt_not_le _ _ L).
    apply Qle_shift_div_l; lra. }
  split.
  - rewrite plan_filter. apply in_map, filter_In. now split.
  - cbn [recommendations entry]. intro N.
    apply recommend_nil in N. congruence.
Qed.

Lemma X10_low_total_has_action_witness :
  In (mkAction "Intranet"
        [rec_reactivity; rec_professionalism])
     (action_plan sample_report).
Proof.
  assert (I : In (mkStat "Intranet" 1 3 4 5 2 (7 # 2)) (projects sample_report))
    by (vm_compute; left; reflexivity).
  destruct (X10_low_total_has_action sample_db january sample_report _
              ltac:(vm_compute; reflexivity) I ltac:(reflexivity)) as [P _].
  exact P.
Defined.

(** ** The month parameter, further *)

Section MonthMore.

Lemma split_no_dash (s : string) :
  no_dash s -> JsString.split_on "-" s = [s].
Proof.
  unfold no_dash. induction s as [|c r IH]; simpl; intro N; [reflexivity|].
  destruct (Ascii.eqb_spec c "-") as [-> | _].
  - exfalso. now apply (N "-"%char); [left|].
  - rewrite IH; [reflexivity|]. intros c' I. apply N. now right.
Qed.

Lemma split_digits_then (ys t : string) :
  all_digits ys = true ->
  JsString.split_on "-" (ys ++ "-" ++ t) = ys :: JsString.split_on "-" t.
Proof.
  intro A. change ("-" ++ t) with (String "-" t).
  induction ys as [|c r IH]; simpl; [reflexivity|].
  simpl in A. apply andb_true_iff in A. destruct A as [Hc Hr].
  now rewrite (digit_not_dash c Hc), (IH Hr).
Qed.

Lemma UTC_NaN_month (y : number) : JsDate.UTC y NaN = None.
Proof. now destruct y. Qed.

Lemma ltb_not_leb (a b : string) :
  String.ltb a b = true -> String.leb b a = false.
Proof.
  unfold String.ltb, String.leb. rewrite (String.compare_antisym a b).
  now destruct (String.compare b a).
Qed.

Lemma given_nonempty (s : string) :
  s <> "" -> not_given (Some (QString s)) = false.
Proof. destruct s; [congruence | reflexivity]. Qed.

End MonthMore.

(** X11: a month parameter that is not empty and holds no dash, or whose
    first or second piece between dashes is no number, makes toISOString
    throw the RangeError "Invalid time value"; nothing in the handler catches
    it, whatever the table holds. *)
Theorem X11_month_not_a_number (db : table) (s : string) :
  s <> "" ->
  no_dash s
  \/ (exists ys ms rest,
        JsString.split_on "-" s = ys :: ms :: rest
        /\ (JsNumber.StringToNumber ys = NaN
            \/ JsNumber.StringToNumber ms = NaN)) ->
  monthRange (QString s) = Throw invalid_time
  /\ get_stats db (Some (QString s)) = Uncaught invalid_time.
Proof.
  intros N H.
  assert (M : monthRange (QString s) = Throw invalid_time).
  { unfold monthRange. destruct H as [D | (ys & ms & rest & S & [E | E])].
    - rewrite (split_no_dash s D). cbn [map element nth_error Number].
      cbn [JsNumber.pred]. now rewrite UTC_NaN_month.
    - rewrite S. cbn [map element nth_error Number]. now rewrite E.
    - rewrite S. cbn [map element nth_error Number]. rewrite E.
      cbn [JsNumber.pred]. now rewrite UTC_NaN_month. }
  split; [exact M|].
  unfold get_stats. now rewrite (given_nonempty s N), M.
Qed.

Lemma X11_month_not_a_number_witness :
  get_stats sample_db (Some (QString "janvier")) = Uncaught invalid_time
  /\ get_stats sample_db (Some (QString "2026-janvier"))
     = Uncaught invalid_time.
Proof.
  split.
  - apply (X11_month_not_a_number sample_db "janvier"); [discriminate|].
    left. intros c I. simpl in I.
    repeat (destruct I as [<- | I]; [discriminate|]). contradiction.
  - apply (X11_month_not_a_number sample_db "2026-janvier"); [discriminate|].
    right. exists "2026", "janvier", []. split; [reflexivity|].
    right. reflexivity.
Defined.

(** X12: only the first two pieces of the month parameter are read: a full
    date such as 2026-01-15 is answered like its month 2026-01, with the
    same interval, projects and action plan. *)
Theorem X12_day_ignored (db : table) (ys ms tail : string) (r : report) :
  all_digits ys = true -> all_digits ms = true ->
  get_stats db (Some (QString (ys ++ "-" ++ ms))) = Json 200 (ReportBody r) ->
  get_stats db (Some (QString (ys ++ "-" ++ ms ++ "-" ++ tail)))
  = Json 200
      (ReportBody
         (mkReport (QString (ys ++ "-" ++ ms ++ "-" ++ tail))
            (report_start r) (report_end r) (projects r) (action_plan r))).
Proof.
  intros Ay Am H.
  assert (E : monthRange (QString (ys ++ "-" ++ ms ++ "-" ++ tail))
              = monthRange (QString (ys ++ "-" ++ ms))).
  { unfold monthRange.
    rewrite (split_digits_then ys (ms ++ "-" ++ tail) Ay).
    rewrite (split_digits_then ms tail Am).
    rewrite (split_year_month ys ms Ay Am).
    reflexivity. }
  apply get_stats_200 in H.
  destruct H as (q & start & end_ & Q & M & ->).
  injection Q as <-.
  unfold get_stats. rewrite given_nonempty, E by (destruct ys; discriminate).
  simpl append in *. now rewrite M.
Qed.

Lemma X12_day_ignored_witness :
  get_stats sample_db (Some (QString "2026-01-15"))
  = Json 200
      (ReportBody
         (mkReport (QString "2026-01-15")
            (report_start sample_report) (report_end sample_report)
            (projects sample_report) (action_plan sample_report))).
Proof.
  apply (X12_day_ignored sample_db "2026" "01" "15" sample_report);
    [reflexivity | reflexivity |].
  vm_compute. reflexivity.
Defined.

(** X13: months tile the time line: when a second request names the month
    that follows the month of a first one (counted over the years, so also
    from December to January), the interval of the second starts with the
    very text the first ends with, and no row is selected by both. *)
Theorem X13_months_tile (db : table) (ys ms ys' ms' : string)
    (y m y' m' : Z) :
  decimal ys y -> decimal ms m -> decimal ys' y' -> decimal ms' m' ->
  12 * JsDate.MakeFullYear y' + (m' - 1) = 12 * JsDate.MakeFullYear y + m ->
  Z.abs (first_of_month y (m - 1)) <= JsDate.maxTime ->
  Z.abs (first_of_month y m) <= JsDate.maxTime ->
  Z.abs (first_of_month y' m') <= JsDate.maxTime ->
  exists r r',
    get_stats db (Some (QString (ys ++ "-" ++ ms))) = Json 200 (ReportBody r)
    /\ get_stats db (Some (QString (ys' ++ "-" ++ ms')))
       = Json 200 (ReportBody r')
    /\ report_end r = report_start r'
    /\ forall x,
         in_range (report_start r) (report_end r) x = true ->
         in_range (report_start r') (report_end r') x = false.
Proof.
  intros Dy Dm Dy' Dm' Next R1 R2 R3.
  assert (S : first_of_month y' (m' - 1) = first_of_month y m).
  { unfold first_of_month, JsDate.MakeDay. f_equal.
    assert (A : JsDate.MakeFullYear y' + (m' - 1) / 12
                = JsDate.MakeFullYear y + m / 12).
    { rewrite <- !Z.div_add_l by lia.
      rewrite (Z.mul_comm (JsDate.MakeFullYear y') 12).
      rewrite (Z.mul_comm (JsDate.MakeFullYear y) 12). now rewrite Next. }
    assert (B : (m' - 1) mod 12 = m mod 12).
    { rewrite <- (Z.mod_add (m' - 1) (JsDate.MakeFullYear y') 12) by lia.
      rewrite <- (Z.mod_add m (JsDate.MakeFullYear y) 12) by lia.
      f_equal. lia. }
    now rewrite A, B. }
  assert (R0 : Z.abs (first_of_month y' (m' - 1)) <= JsDate.maxTime)
    by now rewrite S.
  pose proof (get_stats_decimal db ys ms y m Dy Dm R1 R2) as G.
  pose proof (get_stats_decimal db ys' ms' y' m' Dy' Dm' R0 R3) as G'.
  cbv zeta in G, G'.
  eexists. eexists. split; [exact G|]. split; [exact G'|].
  cbn [report_start report_end].
  assert (E : midnight_string (JsDate.MakeFullYear y + m / 12) (m mod 12 + 1)
              = midnight_string (JsDate.MakeFullYear y' + (m' - 1) / 12)
                  ((m' - 1) mod 12 + 1)).
  { rewrite <- !iso_string_first_of_month. now rewrite S. }
  split; [exact E|].
  intros x I. unfold in_range in *. rewrite <- E.
  apply andb_true_iff in I. destruct I as [_ I].
  now rewrite (ltb_not_leb _ _ I).
Qed.

Lemma X13_months_tile_witness :
  exists r r',
    get_stats sample_db (Some (QString "2026-12")) = Json 200 (ReportBody r)
    /\ get_stats sample_db (Some (QString "2027-01"))
       = Json 200 (ReportBody r')
    /\ report_end r = report_start r'.
Proof.
  assert (D : forall s n, s <> "" -> all_digits s = true ->
                          decimal_value 0 s = n -> decimal s n)
    by (intros; repeat split; assumption).
  assert (Y : decimal "2026" 2026)
    by (apply D; [discriminate | reflexivity | reflexivity]).
  assert (Y' : decimal "2027" 2027)
    by (apply D; [discriminate | reflexivity | reflexivity]).
  assert (M : decimal "12" 12)
    by (apply D; [discriminate | reflexivity | reflexivity]).
  assert (M' : decimal "01" 1)
    by (apply D; [discriminate | reflexivity | reflexivity]).
  assert (R1 : Z.abs (first_of_month 2026 (12 - 1)) <= JsDate.maxTime)
    by (vm_compute; discriminate).
  assert (R2 : Z.abs (first_of_month 2026 12) <= JsDate.maxTime)
    by (vm_compute; discriminate).
  assert (R3 : Z.abs (first_of_month 2027 1) <= JsDate.maxTime)
    by (vm_compute; discriminate).
  destruct (X13_months_tile sample_db "2026" "12" "2027" "01" 2026 12 2027 1
              Y M Y' M' eq_refl R1 R2 R3) as (r & r' & G & G' & E & _).
  exists r, r'. split; [exact G|]. split; [exact G'|]. exact E.
Defined.


(** ** The order of timestamps *)

Section Months.

Import JsDate.

Lemma MakeDay_month_day (y mo : Z) : MakeDay y mo = month_day (12 * y + mo).
Proof.
  unfold month_day, MakeDay.
  assert (A : (12 * y + mo) / 12 = y + mo / 12)
    by (rewrite (Z.mul_comm 12 y); apply Z.div_add_l; lia).
  assert (B : (12 * y + mo) mod 12 = mo mod 12)
    by (rewrite Z.add_comm, Z.mul_comm; apply Z.mod_add; lia).
  now rewrite A, B, Z.add_0_l.
Qed.

Lemma month_day_cycle (e k : Z) :
  month_day (4800 * e + k) = 146097 * e + month_day k.
Proof.
  unfold month_day, MakeDay.
  replace (4800 * e + k) with (k + (400 * e) * 12) by ring.
  rewrite Z.div_add, Z.mod_add by lia.
  replace (0 + (k / 12 + 400 * e)) with (400 * e + (0 + k / 12)) by ring.
  rewrite DayFromYear_cycle, InLeapYear_cycle. ring.
Qed.

Lemma check_days :
  forallb
    (fun y =>
       forallb
         (fun mn =>
            let s := MakeDay y mn in
            let n := MakeDay y (mn + 1) in
            (s <? n) && (n - s <=? 31)
            && forallb (fun dd => day_ok y mn s n dd) day_offsets)
         month_indices)
    cycle_years = true.
Proof. vm_compute. reflexivity. Qed.

Lemma in_day_offsets (dd : Z) : 0 <= dd < 31 -> In dd day_offsets.
Proof.
  intro H. apply in_map_iff. exists (Z.to_nat dd). split; [lia|].
  apply in_seq. lia.
Qed.

Lemma check_month (y mn : Z) :
  0 <= y < 400 -> 0 <= mn < 12 ->
  MakeDay y mn < MakeDay y (mn + 1) <= MakeDay y mn + 31
  /\ forall dd, 0 <= dd < 31 ->
       day_ok y mn (MakeDay y mn) (MakeDay y (mn + 1)) dd = true.
Proof.
  intros Hy Hm.
  pose proof (proj1 (forallb_forall _ _)
                (proj1 (forallb_forall _ _) check_days y (in_cycle_years y Hy))
                mn (in_month_indices mn Hm)) as C.
  cbv beta zeta in C.
  apply andb_true_iff in C. destruct C as [L D].
  apply andb_true_iff in L. destruct L as [L1 L2].
  apply Z.ltb_lt in L1. apply Z.leb_le in L2.
  split; [lia|]. intros dd Hd.
  exact (proj1 (forallb_forall _ _) D dd (in_day_offsets dd Hd)).
Qed.

Lemma day_ok_spec (y mn s n dd : Z) :
  day_ok y mn s n dd = true -> dd < n - s ->
  civil_of_day (s + dd) = (y, mn + 1, dd + 1).
Proof.
  unfold day_ok. intros H L.
  apply Z.ltb_lt in L. rewrite L in H.
  destruct (civil_of_day (s + dd)) as [[y' m] d].
  rewrite !andb_true_iff, !Z.eqb_eq in H. now destruct H as [[-> ->] ->].
Qed.

(** Within the cycle of 400 years: a month has 1 to 31 days, and each of
    its days is mapped back to its date. *)
Lemma month_in_cycle (k : Z) :
  0 <= k < 4800 ->
  month_day k < month_day (k + 1) <= month_day k + 31
  /\ forall dd, 0 <= dd < month_day (k + 1) - month_day k ->
       civil_of_day (month_day k + dd) = (k / 12, k mod 12 + 1, dd + 1).
Proof.
  intro H.
  assert (Hy : 0 <= k / 12 < 400)
    by (split; [apply Z.div_pos; lia | apply Z.div_lt_upper_bound; lia]).
  assert (Hm : 0 <= k mod 12 < 12) by (apply Z.mod_pos_bound; lia).
  destruct (check_month (k / 12) (k mod 12) Hy Hm) as [L D].
  assert (E : 12 * (k / 12) + k mod 12 = k)
    by (symmetry; apply Z.div_mod; lia).
  assert (S0 : MakeDay (k / 12) (k mod 12) = month_day k)
    by (rewrite MakeDay_month_day; now rewrite E).
  assert (S1 : MakeDay (k / 12) (k mod 12 + 1) = month_day (k + 1))
    by (rewrite MakeDay_month_day; f_equal; lia).
  rewrite S0, S1 in L. split; [exact L|]. intros dd Hd.
  rewrite <- S0.
  apply (day_ok_spec _ _ _ (MakeDay (k / 12) (k mod 12 + 1)));
    [apply D; lia|].
  rewrite S0, S1. lia.
Qed.

(** The same for every month. *)
Lemma month_anywhere (k : Z) :
  month_day k < month_day (k + 1) <= month_day k + 31
  /\ forall dd, 0 <= dd < month_day (k + 1) - month_day k ->
       civil_of_day (month_day k + dd) = (k / 12, k mod 12 + 1, dd + 1).
Proof.
  assert (K : k = 4800 * (k / 4800) + k mod 4800) by (apply Z.div_mod; lia).
  assert (B : 0 <= k mod 4800 < 4800) by (apply Z.mod_pos_bound; lia).
  destruct (month_in_cycle (k mod 4800) B) as [L D].
  set (e := k / 4800) in *. set (k0 := k mod 4800) in *.
  assert (S0 : month_day k = 146097 * e + month_day k0)
    by (rewrite K; apply month_day_cycle).
  assert (S1 : month_day (k + 1) = 146097 * e + month_day (k0 + 1)).
  { rewrite K. replace (4800 * e + k0 + 1) with (4800 * e + (k0 + 1)) by ring.
    apply month_day_cycle. }
  rewrite S0, S1. split; [lia|]. intros dd Hd.
  rewrite <- Z.add_assoc, civil_of_day_cycle, D by lia.
  f_equal. f_equal.
  - rewrite K. replace (4800 * e + k0) with (k0 + (400 * e) * 12) by ring.
    rewrite Z.div_add by lia. ring.
  - rewrite K. replace (4800 * e + k0) with (k0 + (400 * e) * 12) by ring.
    now rewrite Z.mod_add by lia.
Qed.

Lemma month_day_step (k : Z) : month_day k < month_day (k + 1).
Proof. now destruct (month_anywhere k) as [[L _] _]. Qed.

Lemma month_day_lt (k k' : Z) : k < k' -> month_day k < month_day k'.
Proof.
  intro H. replace k' with (k + 1 + Z.of_nat (Z.to_nat (k' - k - 1))) by lia.
  induction (Z.to_nat (k' - k - 1)) as [|n IH].
  - rewrite Z.add_0_r. apply month_day_step.
  - rewrite Nat2Z.inj_succ.
    replace (k + 1 + Z.succ (Z.of_nat n)) with (k + 1 + Z.of_nat n + 1) by lia.
    pose proof (month_day_step (k + 1 + Z.of_nat n)). lia.
Qed.

Lemma month_day_le (k k' : Z) : k <= k' -> month_day k <= month_day k'.
Proof.
  intro H. destruct (Z.eq_dec k k') as [-> | N]; [lia|].
  pose proof (month_day_lt k k'). lia.
Qed.

(** Every day lies in some month. *)
Lemma month_of_day_upto (n : nat) (day : Z) :
  month_day 0 <= day < month_day (Z.of_nat n) ->
  exists k, 0 <= k < Z.of_nat n /\ month_day k <= day < month_day (k + 1).
Proof.
  induction n as [|n IH]; intro H.
  - simpl in H. lia.
  - rewrite Nat2Z.inj_succ in *. unfold Z.succ in *.
    destruct (Z_lt_le_dec day (month_day (Z.of_nat n))) as [L | G].
    + destruct IH as (k & Hk & B); [lia|]. exists k. split; [lia | exact B].
    + exists (Z.of_nat n). split; lia.
Qed.

Lemma month_of_day (day : Z) :
  exists k, month_day k <= day < month_day (k + 1).
Proof.
  set (x := day - month_day 0).
  assert (X : x = 146097 * (x / 146097) + x mod 146097)
    by (apply Z.div_mod; lia).
  assert (B : 0 <= x mod 146097 < 146097) by (apply Z.mod_pos_bound; lia).
  assert (C : month_day 4800 = 146097 + month_day 0)
    by (vm_compute; reflexivity).
  destruct (month_of_day_upto 4800 (month_day 0 + x mod 146097))
    as (k & _ & L).
  { change (Z.of_nat 4800) with 4800. lia. }
  exists (4800 * (x / 146097) + k).
  replace (4800 * (x / 146097) + k + 1) with (4800 * (x / 146097) + (k + 1))
    by ring.
  rewrite !month_day_cycle. unfold x in *. lia.
Qed.

(** The date of a day, through the month the day lies in. *)
Lemma civil_of_day_month (day : Z) :
  exists k,
    month_day k <= day < month_day (k + 1)
    /\ civil_of_day day = (k / 12, k mod 12 + 1, day - month_day k + 1).
Proof.
  destruct (month_of_day day) as (k & B). exists k. split; [exact B|].
  destruct (month_anywhere k) as [_ D].
  replace day with (month_day k + (day - month_day k)) at 1 by ring.
  rewrite D by lia. reflexivity.
Qed.

(** Later days have later dates, in the order year, month, day. *)
Lemma civil_of_day_lt (day1 day2 : Z) :
  day1 < day2 ->
  let '(y1, m1, d1) := civil_of_day day1 in
  let '(y2, m2, d2) := civil_of_day day2 in
  (1 <= m1 <= 12 /\ 1 <= d1 <= 31 /\ 1 <= m2 <= 12 /\ 1 <= d2 <= 31)
  /\ (y1 < y2 \/ (y1 = y2 /\ (m1 < m2 \/ (m1 = m2 /\ d1 < d2)))).
Proof.
  intro H.
  destruct (civil_of_day_month day1) as (k1 & B1 & ->).
  destruct (civil_of_day_month day2) as (k2 & B2 & ->).
  destruct (month_anywhere k1) as [[_ U1] _].
  destruct (month_anywhere k2) as [[_ U2] _].
  assert (M1 : 0 <= k1 mod 12 < 12) by (apply Z.mod_pos_bound; lia).
  assert (M2 : 0 <= k2 mod 12 < 12) by (apply Z.mod_pos_bound; lia).
  split; [lia|].
  assert (K : k1 <= k2).
  { destruct (Z_le_gt_dec k1 k2) as [L | G]; [exact L|].
    pose proof (month_day_le (k2 + 1) k1). lia. }
  assert (E1 : k1 = 12 * (k1 / 12) + k1 mod 12) by (apply Z.div_mod; lia).
  assert (E2 : k2 = 12 * (k2 / 12) + k2 mod 12) by (apply Z.div_mod; lia).
  destruct (Z.eq_dec k1 k2) as [<- | N].
  - right. split; [reflexivity|]. right. split; [reflexivity | lia].
  - lia.
Qed.

End Months.

Section TimestampOrder.

Import JsDate.

Lemma pad_append (w : nat) (n : Z) (acc rest : string) :
  pad w n acc ++ rest = pad w n (acc ++ rest).
Proof.
  revert n acc. induction w as [|w IH]; intros n acc; simpl; [reflexivity|].
  now rewrite IH.
Qed.

Lemma compare_sep (c : ascii) (s t : string) :
  String.compare (String c s) (String c t) = String.compare s t.
Proof.
  simpl. replace (Ascii.compare c c) with Eq; [reflexivity|].
  symmetry. unfold Ascii.compare. apply N.compare_refl.
Qed.

Lemma digit_of_nat (n : Z) :
  exists k, (k < 10)%nat /\ n mod 10 = Z.of_nat k
            /\ digit n = ascii_of_nat (48 + k).
Proof.
  assert (B : 0 <= n mod 10 < 10) by (apply Z.mod_pos_bound; lia).
  exists (Z.to_nat (n mod 10)). unfold digit. repeat split; lia.
Qed.

Lemma compare_digit (a b : Z) (s t : string) :
  String.compare (String (digit a) s) (String (digit b) t)
  = then_compare (a mod 10 ?= b mod 10) (String.compare s t).
Proof.
  destruct (digit_of_nat a) as (ka & La & -> & ->).
  destruct (digit_of_nat b) as (kb & Lb & -> & ->).
  do 10 (try (destruct ka as [|ka])); try (exfalso; lia);
    do 10 (try (destruct kb as [|kb])); try (exfalso; lia);
    reflexivity.
Qed.

Lemma compare_pad (w : nat) (a b : Z) (s t : string) :
  0 <= a < 10 ^ Z.of_nat w -> 0 <= b < 10 ^ Z.of_nat w ->
  String.compare (pad w a s) (pad w b t)
  = then_compare (a ?= b) (String.compare s t).
Proof.
  revert a b s t. induction w as [|w IH]; intros a b s t Ha Hb.
  - simpl in Ha, Hb. assert (a = 0) by lia. assert (b = 0) by lia.
    subst. reflexivity.
  - rewrite Nat2Z.inj_succ, Z.pow_succ_r in Ha, Hb by lia.
    cbn [pad]. rewrite IH, compare_digit
      by (split; [apply Z.div_pos; lia | apply Z.div_lt_upper_bound; lia]).
    assert (Ea : a = 10 * (a / 10) + a mod 10) by (apply Z.div_mod; lia).
    assert (Eb : b = 10 * (b / 10) + b mod 10) by (apply Z.div_mod; lia).
    assert (Ma : 0 <= a mod 10 < 10) by (apply Z.mod_pos_bound; lia).
    assert (Mb : 0 <= b mod 10 < 10) by (apply Z.mod_pos_bound; lia).
    destruct (Z.compare_spec (a / 10) (b / 10)) as [E | L | G];
      destruct (Z.compare_spec (a mod 10) (b mod 10)) as [E' | L' | G'];
      destruct (Z.compare_spec a b) as [E2 | L2 | G2];
      try reflexivity; exfalso; lia.
Qed.

(** The text of a timestamp, field after field. *)
Lemma iso_string_fields (t : Z) :
  let '(y, m, d) := civil_of_day (t / msPerDay) in
  let r := t mod msPerDay in
  0 <= y <= 9999 ->
  iso_string t
  = pad 4 y
      (String "-"
         (pad 2 m
            (String "-"
               (pad 2 d
                  (String "T"
                     (pad 2 (r / 3600000)
                        (String ":"
                           (pad 2 (r / 60000 mod 60)
                              (String ":"
                                 (pad 2 (r / 1000 mod 60)
                                    (String "."
                                       (pad 3 (r mod 1000) "Z")))))))))))).
Proof.
  unfold iso_string, time_string, year_string.
  destruct (civil_of_day (t / msPerDay)) as [[y m] d]. intros [L U].
  apply Z.leb_le in L, U. rewrite L, U. cbn [andb].
  repeat (rewrite pad_append; cbn [append]). reflexivity.
Qed.

Lemma four_digit_year_spec (t : Z) :
  four_digit_year t ->
  let '(y, m, d) := civil_of_day (t / msPerDay) in
  0 <= y <= 9999 /\ 1 <= m <= 12 /\ 1 <= d <= 31.
Proof.
  unfold four_digit_year, year_0, year_10000. intro H.
  destruct (civil_of_day_month (t / msPerDay)) as (k & B & ->).
  destruct (month_anywhere k) as [[_ U] _].
  assert (M : 0 <= k mod 12 < 12) by (apply Z.mod_pos_bound; lia).
  assert (D0 : month_day 0 = -719528) by (vm_compute; reflexivity).
  assert (D1 : month_day 120000 = 2932897) by (vm_compute; reflexivity).
  assert (Dt : -719528 <= t / msPerDay < 2932897)
    by (unfold msPerDay; Z.div_mod_to_equations; lia).
  assert (K : 0 <= k < 120000).
  { split.
    - destruct (Z_le_gt_dec 0 k) as [L | G]; [exact L|].
      pose proof (month_day_le (k + 1) 0). lia.
    - destruct (Z_lt_le_dec k 120000) as [L | G]; [exact L|].
      pose proof (month_day_le 120000 k). lia. }
  split; [|lia].
  split; [apply Z.div_pos; lia|].
  assert (k / 12 < 10000) by (apply Z.div_lt_upper_bound; lia). lia.
Qed.

Lemma compare_lt (a b : Z) : a < b -> (a ?= b) = Lt.
Proof. intro H. now apply Z.compare_lt_iff. Qed.

(** Later instants have later texts. *)
Lemma iso_string_lt (t1 t2 : Z) :
  four_digit_year t1 -> four_digit_year t2 -> t1 < t2 ->
  String.compare (iso_string t1) (iso_string t2) = Lt.
Proof.
  intros F1 F2 L.
  pose proof (iso_string_fields t1) as I1.
  pose proof (iso_string_fields t2) as I2.
  pose proof (four_digit_year_spec t1 F1) as B1.
  pose proof (four_digit_year_spec t2 F2) as B2.
  assert (Dle : t1 / msPerDay <= t2 / msPerDay)
    by (apply Z.div_le_mono; [unfold msPerDay|]; lia).
  assert (R1 : 0 <= t1 mod msPerDay < 86400000)
    by (apply Z.mod_pos_bound; reflexivity).
  assert (R2 : 0 <= t2 mod msPerDay < 86400000)
    by (apply Z.mod_pos_bound; reflexivity).
  destruct (Z.eq_dec (t1 / msPerDay) (t2 / msPerDay)) as [E | N].
  - assert (Lr : t1 mod msPerDay < t2 mod msPerDay).
    { pose proof (Z.div_mod t1 msPerDay ltac:(discriminate)).
      pose proof (Z.div_mod t2 msPerDay ltac:(discriminate)).
      rewrite E in *. lia. }
    rewrite E in *.
    destruct (civil_of_day (t2 / msPerDay)) as [[y m] d].
    destruct B1 as (By & Bm & Bd).
    rewrite (I1 By), (I2 By).
    set (r1 := t1 mod msPerDay) in *. set (r2 := t2 mod msPerDay) in *.
    rewrite !compare_pad, !compare_sep, !compare_pad, !compare_sep,
      !compare_pad, !compare_sep by (cbn; lia).
    rewrite !Z.compare_refl. cbn [then_compare].
    rewrite !compare_pad, !compare_sep, !compare_pad, !compare_sep,
      !compare_pad, !compare_sep, !compare_pad
      by (cbn; Z.div_mod_to_equations; lia).
    destruct (Z.compare_spec (r1 / 3600000) (r2 / 3600000)) as [E1 | L1 | G1];
      [| reflexivity | exfalso; Z.div_mod_to_equations; lia].
    destruct (Z.compare_spec (r1 / 60000 mod 60) (r2 / 60000 mod 60))
      as [E2 | L2 | G2];
      [| reflexivity | exfalso; Z.div_mod_to_equations; lia].
    destruct (Z.compare_spec (r1 / 1000 mod 60) (r2 / 1000 mod 60))
      as [E3 | L3 | G3];
      [| reflexivity | exfalso; Z.div_mod_to_equations; lia].
    destruct (Z.compare_spec (r1 mod 1000) (r2 mod 1000)) as [E4 | L4 | G4];
      [| reflexivity | exfalso; Z.div_mod_to_equations; lia].
    exfalso. Z.div_mod_to_equations. lia.
  - assert (Dlt : t1 / msPerDay < t2 / msPerDay) by lia.
    pose proof (civil_of_day_lt _ _ Dlt) as C.
    destruct (civil_of_day (t1 / msPerDay)) as [[y1 m1] d1].
    destruct (civil_of_day (t2 / msPerDay)) as [[y2 m2] d2].
    destruct B1 as (By1 & _). destruct B2 as (By2 & _).
    destruct C as [(Bm1 & Bd1 & Bm2 & Bd2) C].
    rewrite (I1 By1), (I2 By2).
    rewrite !compare_pad, !compare_sep, !compare_pad, !compare_sep,
      !compare_pad by (cbn; lia).
    destruct C as [Ly | [-> [Lm | [-> Ld]]]].
    + now rewrite (compare_lt _ _ Ly).
    + now rewrite Z.compare_refl, (compare_lt _ _ Lm).
    + now rewrite !Z.compare_refl, (compare_lt _ _ Ld).
Qed.

Lemma compare_refl (s : string) : String.compare s s = Eq.
Proof.
  induction s as [|c s IH]; [reflexivity|]. now rewrite compare_sep.
Qed.

Lemma iso_string_leb (t1 t2 : Z) :
  four_digit_year t1 -> four_digit_year t2 ->
  String.leb (iso_string t1) (iso_string t2) = (t1 <=? t2).
Proof.
  intros F1 F2. unfold String.leb.
  destruct (Z.leb_spec t1 t2) as [L | G].
  - destruct (Z.eq_dec t1 t2) as [-> | N].
    + now rewrite compare_refl.
    + now rewrite (iso_string_lt t1 t2 F1 F2) by lia.
  - rewrite String.compare_antisym, (iso_string_lt t2 t1 F2 F1 G).
    reflexivity.
Qed.

Lemma iso_string_ltb (t1 t2 : Z) :
  four_digit_year t1 -> four_digit_year t2 ->
  String.ltb (iso_string t1) (iso_string t2) = (t1 <? t2).
Proof.
  intros F1 F2. unfold String.ltb.
  destruct (Z.ltb_spec t1 t2) as [L | G].
  - now rewrite (iso_string_lt t1 t2 F1 F2 L).
  - destruct (Z.eq_dec t1 t2) as [-> | N].
    + now rewrite compare_refl.
    + rewrite String.compare_antisym, (iso_string_lt t2 t1 F2 F1) by lia.
      reflexivity.
Qed.

End TimestampOrder.

(** X14: for instants of the years 0 to 9999, the texts written by
    toISOString compare, as TEXT, exactly like the instants themselves; in
    particular two different instants never have the same text. *)
Theorem X14_timestamps_ordered (t1 t2 : Z) :
  four_digit_year t1 -> four_digit_year t2 ->
  String.compare (JsDate.iso_string t1) (JsDate.iso_string t2) = (t1 ?= t2)
  /\ String.leb (JsDate.iso_string t1) (JsDate.iso_string t2) = (t1 <=? t2)
  /\ String.ltb (JsDate.iso_string t1) (JsDate.iso_string t2) = (t1 <? t2)
  /\ (JsDate.iso_string t1 = JsDate.iso_string t2 -> t1 = t2).
Proof.
  intros F1 F2.
  assert (C : String.compare (JsDate.iso_string t1) (JsDate.iso_string t2)
              = (t1 ?= t2)).
  { destruct (Z.compare_spec t1 t2) as [-> | L | G].
    - apply compare_refl.
    - now apply iso_string_lt.
    - rewrite String.compare_antisym, (iso_string_lt t2 t1 F2 F1 G).
      reflexivity. }
  split; [exact C|]. split; [now apply iso_string_leb|].
  split; [now apply iso_string_ltb|].
  intro E. rewrite E, compare_refl in C. symmetry in C.
  now apply Z.compare_eq.
Qed.

Lemma X14_timestamps_ordered_witness :
  String.ltb (JsDate.iso_string mid_january)
    (JsDate.iso_string (mid_january + 1)) = true.
Proof.
  destruct (X14_timestamps_ordered mid_january (mid_january + 1))
    as (_ & _ & L & _).
  - vm_compute. split; [discriminate | reflexivity].
  - vm_compute. split; [discriminate | reflexivity].
  - rewrite L. reflexivity.
Defined.

Section Bucket.

Lemma four_digit_in_range (t : Z) :
  four_digit_year t -> Z.abs t <= JsDate.maxTime.
Proof. unfold four_digit_year, year_0, year_10000, JsDate.maxTime. lia. Qed.

(** The decision of the WHERE clause on a row stamped at [now], for the
    interval of a month written in digits. *)
Lemma in_range_month (y m now : Z) (x : feedback) :
  four_digit_year (first_of_month y (m - 1)) ->
  four_digit_year (first_of_month y m) ->
  four_digit_year now ->
  created_at x = JsDate.iso_string now ->
  in_range
    (midnight_string (JsDate.MakeFullYear y + (m - 1) / 12)
       ((m - 1) mod 12 + 1))
    (midnight_string (JsDate.MakeFullYear y + m / 12) (m mod 12 + 1)) x
  = (first_of_month y (m - 1) <=? now) && (now <? first_of_month y m).
Proof.
  intros Fs Fe Fn E. unfold in_range.
  rewrite <- !iso_string_first_of_month, E.
  now rewrite iso_string_leb, iso_string_ltb.
Qed.

End Bucket.

(** X15: the interval of a month selects by the clock: for a month written
    in digits whose two boundaries lie in the years 0 to 9999, a row stamped
    by toISOString at an instant of those years is selected by the WHERE
    clause exactly when the instant is at or after the first instant of the
    month and before the first instant of the next month. *)
Theorem X15_month_selects_by_clock (db : table) (ys ms : string) (y m : Z) :
  decimal ys y -> decimal ms m ->
  four_digit_year (first_of_month y (m - 1)) ->
  four_digit_year (first_of_month y m) ->
  exists r,
    get_stats db (Some (QString (ys ++ "-" ++ ms))) = Json 200 (ReportBody r)
    /\ report_start r = JsDate.iso_string (first_of_month y (m - 1))
    /\ report_end r = JsDate.iso_string (first_of_month y m)
    /\ forall x now,
         four_digit_year now ->
         created_at x = JsDate.iso_string now ->
         in_range (report_start r) (report_end r) x
         = (first_of_month y (m - 1) <=? now) && (now <? first_of_month y m).
Proof.
  intros Dy Dm Fs Fe.
  pose proof (get_stats_decimal db ys ms y m Dy Dm
                (four_digit_in_range _ Fs) (four_digit_in_range _ Fe)) as G.
  cbv zeta in G. eexists. split; [exact G|].
  cbn [report_start report_end].
  split; [now rewrite iso_string_first_of_month|].
  split; [now rewrite iso_string_first_of_month|].
  intros x now Fn E. now apply in_range_month.
Qed.

Lemma X15_month_selects_by_clock_witness :
  exists r,
    get_stats sample_db january = Json 200 (ReportBody r)
    /\ forall x,
         created_at x = JsDate.iso_string (mid_january + 86400000) ->
         in_range (report_start r) (report_end r) x = true.
Proof.
  assert (D : forall s n, s <> "" -> all_digits s = true ->
                          decimal_value 0 s = n -> decimal s n)
    by (intros; repeat split; assumption).
  assert (Y : decimal "2026" 2026)
    by (apply D; [discriminate | reflexivity | reflexivity]).
  assert (M : decimal "01" 1)
    by (apply D; [discriminate | reflexivity | reflexivity]).
  assert (F : forall t, In t [first_of_month 2026 (1 - 1);
                              first_of_month 2026 1;
                              mid_january + 86400000] ->
                        four_digit_year t).
  { intros t [<- | [<- | [<- | []]]]; vm_compute;
      (split; [discriminate | reflexivity]). }
  destruct (X15_month_selects_by_clock sample_db "2026" "01" 2026 1 Y M
              (F _ (or_introl eq_refl))
              (F _ (or_intror (or_introl eq_refl))))
    as (r & G & _ & _ & S).
  exists r. split; [exact G|]. intros x E.
  rewrite (S x (mid_january + 86400000)
             (F _ (or_intror (or_intror (or_introl eq_refl)))) E).
  vm_compute. reflexivity.
Defined.

Section Retrieval.

Lemma select_stats_unselected (db : table) (x : feedback) (start end_ : string) :
  in_range start end_ x = false ->
  select_stats (List.app db [x]) start end_ = select_stats db start end_.
Proof.
  intro N. unfold select_stats. rewrite filter_app. cbn [filter].
  now rewrite N, app_nil_r.
Qed.

Lemma select_stats_selected (db : table) (x : feedback) (start end_ : string) :
  in_range start end_ x = true ->
  In (project x)
    (map stat_project (select_stats (List.app db [x]) start end_)).
Proof.
  intro I. unfold select_stats.
  apply (Permutation_in _
           (Permutation_sym
              (Permutation_map stat_project (order_perm _)))).
  rewrite group_projects. apply nodup_In, in_map, filter_In.
  split; [|exact I]. apply in_or_app. right. now left.
Qed.

End Retrieval.

(** X16: a submission handled at an instant of the years 0 to 9999 and
    answered 200 shows up in the statistics of the month that holds the
    instant: the project it names, trimmed, is in the projects list of that
    month; for a month that does not hold the instant, the projects and the
    action plan are what they were before the submission. *)
Theorem X16_submission_counted (db : table) (now : Z) (b : body)
    (ys ms : string) (y m : Z) :
  status_of (fst (post_feedback db now b)) = 200 ->
  four_digit_year now ->
  decimal ys y -> decimal ms m ->
  four_digit_year (first_of_month y (m - 1)) ->
  four_digit_year (first_of_month y m) ->
  let month := Some (QString (ys ++ "-" ++ ms)) in
  exists p r r',
    get b "project" = VString p
    /\ get_stats db month = Json 200 (ReportBody r)
    /\ get_stats (snd (post_feedback db now b)) month
       = Json 200 (ReportBody r')
    /\ (first_of_month y (m - 1) <= now < first_of_month y m ->
        In (JsString.trim p) (map stat_project (projects r')))
    /\ (~ first_of_month y (m - 1) <= now < first_of_month y m -> r' = r).
Proof.
  intros A Fn Dy Dm Fs Fe month.
  destruct (accepted_row db now b A)
    as (x & e & c & p & S & _ & _ & Hp & _ & _ & Cr & _ & _ & Ep & _).
  pose proof (get_stats_decimal db ys ms y m Dy Dm
                (four_digit_in_range _ Fs) (four_digit_in_range _ Fe)) as G.
  pose proof (get_stats_decimal (snd (post_feedback db now b)) ys ms y m
                Dy Dm (four_digit_in_range _ Fs) (four_digit_in_range _ Fe))
    as G'.
  cbv zeta in G, G'.
  exists p. eexists. eexists.
  split; [exact Hp|]. split; [exact G|]. split; [exact G'|].
  cbn [projects]. rewrite S.
  pose proof (in_range_month y m now x Fs Fe Fn Cr) as I.
  split.
  - intros [L U]. rewrite <- Ep. apply select_stats_selected.
    rewrite I. apply andb_true_iff. split; [now apply Z.leb_le|].
    now apply Z.ltb_lt.
  - intro N. rewrite select_stats_unselected; [reflexivity|].
    rewrite I. apply andb_false_iff.
    destruct (Z.leb_spec (first_of_month y (m - 1)) now) as [L | G0];
      [|now left].
    right. apply Z.ltb_ge. lia.
Qed.

Lemma X16_submission_counted_witness :
  let b := submission "n@x.com" "Delta" " Site " 1 2 3 4 in
  exists r',
    get_stats (snd (post_feedback sample_db (mid_january + 5) b)) january
    = Json 200 (ReportBody r')
    /\ In "Site" (map stat_project (projects r')).
Proof.
  intro b.
  assert (D : forall s n, s <> "" -> all_digits s = true ->
                          decimal_value 0 s = n -> decimal s n)
    by (intros; repeat split; assumption).
  assert (Y : decimal "2026" 2026)
    by (apply D; [discriminate | reflexivity | reflexivity]).
  assert (M : decimal "01" 1)
    by (apply D; [discriminate | reflexivity | reflexivity]).
  assert (F : forall t, In t [first_of_month 2026 (1 - 1);
                              first_of_month 2026 1; mid_january + 5] ->
                        four_digit_year t).
  { intros t [<- | [<- | [<- | []]]]; vm_compute;
      (split; [discriminate | reflexivity]). }
  assert (A : status_of (fst (post_feedback sample_db (mid_january + 5) b))
              = 200) by (vm_compute; reflexivity).
  destruct (X16_submission_counted sample_db (mid_january + 5) b
              "2026" "01" 2026 1 A
              (F _ (or_intror (or_intror (or_introl eq_refl)))) Y M
              (F _ (or_introl eq_refl))
              (F _ (or_intror (or_introl eq_refl))))
    as (p & r & r' & Hp & _ & G' & I & _).
  injection Hp as <-.
  exists r'. split; [exact G'|].
  apply I. vm_compute. split; [discriminate | reflexivity].
Defined.
